(** * Xilinx test pattern generator CRTC and video timing controller list

    A shallow embedding of [drivers/gpu/drm/xlnx/xlnx_vtc.h],
    [xlnx_vtc_list.c] and [xlnx_tpg.c], and the properties of the registry
    and of the enable / disable / interrupt paths that the specification
    states about them.

    Pointers are integers with [NULL] = 0, C integers are [Z] with their
    conversions written out, and every effect that leaves the driver (MMIO
    accesses, calls into the DRM core, calls into a timing controller) is
    appended to a chronological trace. *)

From Stdlib Require Import ZArith List Bool Lia.
Import ListNotations.
Local Open Scope Z_scope.

(** Drop from the context whatever the goal does not mention, so that a
    proof depends on no more of the section than its statement. *)
Ltac only_goal := repeat match goal with H : _ |- _ => clear H end.

(** ** Kernel scaffolding *)

Module K.

Definition ptr := Z.
Definition NULL : ptr := 0.

(** The error numbers that the driver names, with the values of the
    kernel's errno headers ([xlnx_vtc.h] pulls them in through
    [<linux/errno.h>]).  The properties below use of them only that they
    are positive. *)
Definition ENOMEM : Z := 12.
Definition EFAULT : Z := 14.
Definition EINVAL : Z := 22.
Definition EPROBE_DEFER : Z := 517.

(** [BIT(n)]. *)
Definition BIT (n : Z) : Z := Z.shiftl 1 n.

(** Conversion to [u16] and [u32]. *)
Definition to_u16 (v : Z) : Z := v mod 2 ^ 16.
Definition to_u32 (v : Z) : Z := v mod 2 ^ 32.

(** [IS_ERR] / [PTR_ERR]: a pointer in the last page of the address space,
    read as a signed integer, carries an error number. *)
Definition MAX_ERRNO : Z := 4095.
Definition IS_ERR (p : ptr) : bool := (- MAX_ERRNO <=? p) && (p <? 0).
Definition PTR_ERR (p : ptr) : Z := p.

Inductive irqreturn_t := IRQ_NONE | IRQ_HANDLED.

End K.

Import K.

(** ** The part of the DRM core that the generator driver reads and writes *)

Module Drm.

(** The members of [struct drm_crtc_state] that the driver touches.
    [event] is a [struct drm_pending_vblank_event *]. *)
Record drm_crtc_state {drm_display_mode : Type} := {
  enable : bool;
  output_bus_format : Z;
  adjusted_mode : drm_display_mode;
  event : ptr;
}.
Arguments drm_crtc_state : clear implicits.

Definition set_event {T} (e : ptr) (s : drm_crtc_state T) : drm_crtc_state T :=
  {| enable := enable s;
     output_bus_format := output_bus_format s;
     adjusted_mode := adjusted_mode s;
     event := e |}.

(** Calls into the DRM core that the driver makes for their effect. *)
Inductive call :=
| drm_crtc_handle_vblank
| drm_crtc_send_vblank_event (e : ptr)
| drm_crtc_vblank_get
| drm_crtc_vblank_put
| drm_crtc_vblank_on
| drm_crtc_vblank_off
| complete_all (e : ptr)
| drm_atomic_add_affected_planes
| drm_kms_helper_poll_init
| drm_kms_helper_poll_fini
| drm_mode_config_reset
| drm_plane_helper_add
| drm_crtc_helper_add
| drm_object_attach_property (prop : ptr) (init : Z).

End Drm.

Section Driver.

Set Default Proof Using "Type".

(** *** What the driver takes from the kernel *)

(** [struct videomode] and [struct drm_display_mode] are declared outside
    the driver; it reads [hdisplay] and [vdisplay] of a mode (both [u16])
    and hands the mode to [drm_display_mode_to_videomode]. *)
Variable videomode : Type.
Variable drm_display_mode : Type.
Variable hdisplay : drm_display_mode -> Z.
Variable vdisplay : drm_display_mode -> Z.
Variable drm_display_mode_to_videomode : drm_display_mode -> videomode.

(** The five codes of [<linux/media-bus-format.h>] that the driver names. *)
Variable MEDIA_BUS_FMT_RGB666_1X18 : Z.
Variable MEDIA_BUS_FMT_RBG888_1X24 : Z.
Variable MEDIA_BUS_FMT_UYVY8_1X16 : Z.
Variable MEDIA_BUS_FMT_VUY8_1X24 : Z.
Variable MEDIA_BUS_FMT_UYVY10_1X20 : Z.

(** The helpers of the atomic framework that [xlnx_tpg_crtc_check] asks:
    each maps the proposed CRTC state to its return value. *)
Variable drm_atomic_helper_check_crtc_primary_plane :
  Drm.drm_crtc_state drm_display_mode -> Z.
Variable drm_atomic_add_affected_planes_ret :
  Drm.drm_crtc_state drm_display_mode -> Z.

(** ** xlnx_vtc.h and xlnx_vtc_list.c *)

(** [struct xlnx_vtc_iface].  A callback that is a null function pointer is
    [None]; a callback that is set maps its arguments to the value it
    returns.  The [list] member is the link into the registry and is
    represented by the registry itself. *)
Record xlnx_vtc_iface := {
  of_node : ptr;
  enable : option (ptr -> Z);
  disable : option (ptr -> unit);
  set_timing : option (ptr -> videomode -> Z);
}.

(** The memory holding the timing controller interfaces: what a
    [struct xlnx_vtc_iface *] points to. *)
Variable mem : ptr -> xlnx_vtc_iface.

(** *** The list of registered timing controllers *)

(** Modelled from the spec: the kernel's [struct list_head]
    ([<linux/list.h>]) is not among the sources.  The spec describes the
    registry as an ordered collection of handles; the collection is the
    list of the handles linked into it, oldest first. *)
Definition list_head := list ptr.

(** Modelled from the spec: [INIT_LIST_HEAD] is not among the sources; it
    makes the collection empty. *)
Definition INIT_LIST_HEAD : list_head := [].

(** Modelled from the spec: [list_add_tail] is not among the sources; the
    spec has register "append" the handle, and defends re-registration no
    further than "list semantics". *)
Definition list_add_tail (new : ptr) (head : list_head) : list_head :=
  head ++ [new].

(** Modelled from the spec: [list_del] is not among the sources; the spec
    has unregister "remove" the handle and notes that the removal "assumes
    a match exists".  [None]: the entry is not linked into the list, the
    case the removal does not provide for. *)
Fixpoint list_del (entry : ptr) (head : list_head) : option list_head :=
  match head with
  | [] => None
  | pos :: rest =>
      if pos =? entry then Some rest
      else match list_del entry rest with
           | Some rest' => Some (pos :: rest')
           | None => None
           end
  end.

(** [struct xlnx_vtc_list]; the mutex is held exactly around each access to
    [head], and every operation below runs to completion, so it carries no
    state here. *)
Record xlnx_vtc_list := {
  head : list_head;
  initialized : bool;
}.

(** The file-scope [vtc_list] before [xlnx_vtc_list_init]: static storage. *)
Definition vtc_list0 : xlnx_vtc_list :=
  {| head := []; initialized := false |}.

Definition xlnx_vtc_list_init (vtc_list : xlnx_vtc_list) : Z * xlnx_vtc_list :=
  if negb (initialized vtc_list)
  then (0, {| head := INIT_LIST_HEAD; initialized := true |})
  else (0, vtc_list).

Definition xlnx_vtc_list_fini (vtc_list : xlnx_vtc_list) : xlnx_vtc_list :=
  if initialized vtc_list
  then {| head := head vtc_list; initialized := false |}
  else vtc_list.

Definition xlnx_vtc_register (vtc : ptr) (vtc_list : xlnx_vtc_list)
  : Z * xlnx_vtc_list :=
  if (vtc =? NULL) || (of_node (mem vtc) =? NULL) then (- EINVAL, vtc_list)
  else if negb (initialized vtc_list) then (- EFAULT, vtc_list)
  else (0, {| head := list_add_tail vtc (head vtc_list);
              initialized := initialized vtc_list |}).

Definition xlnx_vtc_unregister (vtc : ptr) (vtc_list : xlnx_vtc_list)
  : option xlnx_vtc_list :=
  if (vtc =? NULL) || negb (initialized vtc_list) then Some vtc_list
  else match list_del vtc (head vtc_list) with
       | Some head' =>
           Some {| head := head'; initialized := initialized vtc_list |}
       | None => None
       end.

(** The loop of [xlnx_of_find_vtc]; [list_for_each_entry] visits the linked
    handles from the oldest on ("scans entries in insertion order" in the
    spec).  [acc] is the pair ([ret], [*vtc]) on entry to the loop. *)
Fixpoint find_loop (np : ptr) (pos : list_head) (acc : Z * ptr) : Z * ptr :=
  match pos with
  | [] => acc
  | vtc_pos :: rest =>
      if of_node (mem vtc_pos) =? np then (0, vtc_pos)
      else find_loop np rest acc
  end.

(** [vtc_out] is the value of [*vtc] before the call; the result is the
    return value and the value of [*vtc] after it. *)
Definition xlnx_of_find_vtc (np : ptr) (vtc_out : ptr)
  (vtc_list : xlnx_vtc_list) : Z * ptr :=
  let ret := - EPROBE_DEFER in
  let vtc_out := NULL in
  if negb (initialized vtc_list) then (ret, vtc_out)
  else find_loop np (head vtc_list) (ret, vtc_out).

(** *** Calls into a timing controller *)

Inductive vtc_call :=
| CallEnable (vtc : ptr)
| CallDisable (vtc : ptr)
| CallSetTiming (vtc : ptr) (vm : videomode).

(** Each forwarder yields the calls it made and its return value. *)
Definition xlnx_vtc_iface_enable (vtc : ptr) : list vtc_call * Z :=
  if vtc =? NULL then ([], - EINVAL)
  else match enable (mem vtc) with
       | None => ([], - EINVAL)
       | Some f => ([CallEnable vtc], f vtc)
       end.

Definition xlnx_vtc_iface_disable (vtc : ptr) : list vtc_call * unit :=
  if vtc =? NULL then ([], tt)
  else match disable (mem vtc) with
       | None => ([], tt)
       | Some f => ([CallDisable vtc], f vtc)
       end.

Definition xlnx_vtc_iface_set_timing (vtc : ptr) (vm : videomode)
  : list vtc_call * Z :=
  if vtc =? NULL then ([], - EINVAL)
  else match set_timing (mem vtc) with
       | None => ([], - EINVAL)
       | Some f => ([CallSetTiming vtc vm], f vtc vm)
       end.

(** *** Histories of register / unregister calls *)

Inductive registry_op :=
| Register (vtc : ptr)
| Unregister (vtc : ptr).

Definition apply_op (o : registry_op) (vtc_list : xlnx_vtc_list)
  : option xlnx_vtc_list :=
  match o with
  | Register vtc => Some (snd (xlnx_vtc_register vtc vtc_list))
  | Unregister vtc => xlnx_vtc_unregister vtc vtc_list
  end.

Fixpoint run (ops : list registry_op) (vtc_list : xlnx_vtc_list)
  : option xlnx_vtc_list :=
  match ops with
  | [] => Some vtc_list
  | o :: rest =>
      match apply_op o vtc_list with
      | Some vtc_list' => run rest vtc_list'
      | None => None
      end
  end.

(** What a history says of a handle, independently of the list: the handle
    is currently registered when the last call that names it is a
    [Register]; [acc] is the answer for the history read so far. *)
Fixpoint registered_from (acc : bool) (ops : list registry_op) (vtc : ptr)
  : bool :=
  match ops with
  | [] => acc
  | Register u :: rest =>
      registered_from (if u =? vtc then true else acc) rest vtc
  | Unregister u :: rest =>
      registered_from (if u =? vtc then false else acc) rest vtc
  end.

Definition registered := registered_from false.

(** Histories on handles with distinct identifiers: a handle is registered
    with a device node that no currently registered handle has, and only a
    currently registered handle is unregistered. *)
Inductive distinct_history : list registry_op -> Prop :=
| dh_nil : distinct_history []
| dh_register ops vtc :
    distinct_history ops ->
    vtc <> NULL ->
    of_node (mem vtc) <> NULL ->
    (forall u, registered ops u = true ->
               of_node (mem u) <> of_node (mem vtc)) ->
    distinct_history (ops ++ [Register vtc])
| dh_unregister ops vtc :
    distinct_history ops ->
    registered ops vtc = true ->
    distinct_history (ops ++ [Unregister vtc]).

(** ** xlnx_tpg.c *)

Definition XLNX_TPG_CONTROL : Z := 0x0000.
Definition XLNX_TPG_GLOBAL_IRQ_EN : Z := 0x0004.
Definition XLNX_TPG_IP_IRQ_EN : Z := 0x0008.
Definition XLNX_TPG_IP_IRQ_STATUS : Z := 0x000C.
Definition XLNX_TPG_ACTIVE_HEIGHT : Z := 0x0010.
Definition XLNX_TPG_ACTIVE_WIDTH : Z := 0x0018.
Definition XLNX_TPG_PATTERN_ID : Z := 0x0020.
Definition XLNX_TPG_COLOR_FORMAT : Z := 0x0040.

Definition XLNX_TPG_IP_IRQ_AP_DONE : Z := BIT 0.

Definition XLNX_TPG_START : Z := BIT 0.
Definition XLNX_TPG_AUTO_RESTART : Z := BIT 7.

Inductive xlnx_tpg_pattern :=
| XTPG_PAT_HORIZONTAL_RAMP
| XTPG_PAT_VERTICAL_RAMP
| XTPG_PAT_TEMPORAL_RAMP
| XTPG_PAT_SOLID_RED
| XTPG_PAT_SOLID_GREEN
| XTPG_PAT_SOLID_BLUE
| XTPG_PAT_SOLID_BLACK
| XTPG_PAT_SOLID_WHITE
| XTPG_PAT_COLOR_BARS
| XTPG_PAT_ZONE_PLATE
| XTPG_PAT_TARTAN_COLOR_BARS
| XTPG_PAT_CROSS_HATCH
| XTPG_PAT_COLOR_SWEEP
| XTPG_PAT_COMBO_RAMP
| XTPG_PAT_CHECKER_BOARD
| XTPG_PAT_DP_COLOR_RAMP
| XTPG_PAT_DP_VERTICAL_LINES
| XTPG_PAT_DP_COLOR_SQUARE.

(** The enumerators count up from [XTPG_PAT_HORIZONTAL_RAMP = 0x1]. *)
Definition pattern_value (p : xlnx_tpg_pattern) : Z :=
  match p with
  | XTPG_PAT_HORIZONTAL_RAMP => 1
  | XTPG_PAT_VERTICAL_RAMP => 2
  | XTPG_PAT_TEMPORAL_RAMP => 3
  | XTPG_PAT_SOLID_RED => 4
  | XTPG_PAT_SOLID_GREEN => 5
  | XTPG_PAT_SOLID_BLUE => 6
  | XTPG_PAT_SOLID_BLACK => 7
  | XTPG_PAT_SOLID_WHITE => 8
  | XTPG_PAT_COLOR_BARS => 9
  | XTPG_PAT_ZONE_PLATE => 10
  | XTPG_PAT_TARTAN_COLOR_BARS => 11
  | XTPG_PAT_CROSS_HATCH => 12
  | XTPG_PAT_COLOR_SWEEP => 13
  | XTPG_PAT_COMBO_RAMP => 14
  | XTPG_PAT_CHECKER_BOARD => 15
  | XTPG_PAT_DP_COLOR_RAMP => 16
  | XTPG_PAT_DP_VERTICAL_LINES => 17
  | XTPG_PAT_DP_COLOR_SQUARE => 18
  end.

Inductive xlnx_tpg_format :=
| XTPG_FMT_RGB
| XTPG_FMT_YUV_444
| XTPG_FMT_YUV_422
| XTPG_FMT_YUV_420
| XTPG_FMT_INVALID.

(** The enumerators count up from [XTPG_FMT_RGB = 0x0]. *)
Definition format_value (f : xlnx_tpg_format) : Z :=
  match f with
  | XTPG_FMT_RGB => 0
  | XTPG_FMT_YUV_444 => 1
  | XTPG_FMT_YUV_422 => 2
  | XTPG_FMT_YUV_420 => 3
  | XTPG_FMT_INVALID => 4
  end.

(** The members of [struct xlnx_tpg] and of its [struct xlnx_tpg_drm] that
    are fixed once probe returns.  [crtc_index] is [drm_crtc_index] of the
    embedded CRTC. *)
Record xlnx_tpg := {
  vtc : ptr;
  disp_bridge : ptr;
  regs : ptr;
  irq : Z;
  output_bus_format : Z;
  color_format : xlnx_tpg_format;
  drm : ptr;
  pattern_prop : ptr;
  crtc_index : Z;
}.

(** The [devm_kzalloc]'ed structure: every member zero. *)
Definition tpg_zero : xlnx_tpg :=
  {| vtc := NULL; disp_bridge := NULL; regs := NULL; irq := 0;
     output_bus_format := 0; color_format := XTPG_FMT_RGB;
     drm := NULL; pattern_prop := NULL; crtc_index := 0 |}.

Definition set_vtc v t :=
  {| vtc := v; disp_bridge := disp_bridge t; regs := regs t; irq := irq t;
     output_bus_format := output_bus_format t;
     color_format := color_format t; drm := drm t;
     pattern_prop := pattern_prop t; crtc_index := crtc_index t |}.
Definition set_disp_bridge v t :=
  {| vtc := vtc t; disp_bridge := v; regs := regs t; irq := irq t;
     output_bus_format := output_bus_format t;
     color_format := color_format t; drm := drm t;
     pattern_prop := pattern_prop t; crtc_index := crtc_index t |}.
Definition set_regs v t :=
  {| vtc := vtc t; disp_bridge := disp_bridge t; regs := v; irq := irq t;
     output_bus_format := output_bus_format t;
     color_format := color_format t; drm := drm t;
     pattern_prop := pattern_prop t; crtc_index := crtc_index t |}.
Definition set_irq v t :=
  {| vtc := vtc t; disp_bridge := disp_bridge t; regs := regs t; irq := v;
     output_bus_format := output_bus_format t;
     color_format := color_format t; drm := drm t;
     pattern_prop := pattern_prop t; crtc_index := crtc_index t |}.
Definition set_output_bus_format v t :=
  {| vtc := vtc t; disp_bridge := disp_bridge t; regs := regs t; irq := irq t;
     output_bus_format := v;
     color_format := color_format t; drm := drm t;
     pattern_prop := pattern_prop t; crtc_index := crtc_index t |}.
Definition set_color_format v t :=
  {| vtc := vtc t; disp_bridge := disp_bridge t; regs := regs t; irq := irq t;
     output_bus_format := output_bus_format t;
     color_format := v; drm := drm t;
     pattern_prop := pattern_prop t; crtc_index := crtc_index t |}.
Definition set_drm v t :=
  {| vtc := vtc t; disp_bridge := disp_bridge t; regs := regs t; irq := irq t;
     output_bus_format := output_bus_format t;
     color_format := color_format t; drm := v;
     pattern_prop := pattern_prop t; crtc_index := crtc_index t |}.
Definition set_pattern_prop v t :=
  {| vtc := vtc t; disp_bridge := disp_bridge t; regs := regs t; irq := irq t;
     output_bus_format := output_bus_format t;
     color_format := color_format t; drm := drm t;
     pattern_prop := v; crtc_index := crtc_index t |}.
Definition set_crtc_index v t :=
  {| vtc := vtc t; disp_bridge := disp_bridge t; regs := regs t; irq := irq t;
     output_bus_format := output_bus_format t;
     color_format := color_format t; drm := drm t;
     pattern_prop := pattern_prop t; crtc_index := v |}.

(** *** Effects *)

Inductive event :=
| EvReadl (addr : ptr) (val : Z)
| EvWritel (val : Z) (addr : ptr)
| EvVtc (c : vtc_call)
| EvEventPipe (e : ptr) (pipe : Z)
| EvDrm (c : Drm.call).

(** What the driver shares with the DRM core and with its interrupt
    handler: [crtc_state] is [crtc->state], [drm_event] is
    [tpg->drm->event]. *)
Record world := {
  trace : list event;
  crtc_state : Drm.drm_crtc_state drm_display_mode;
  drm_event : ptr;
}.

Definition M (A : Type) : Type := world -> A * world.

Definition ret {A} (a : A) : M A := fun w => (a, w).

Definition bind {A B} (c : M A) (k : A -> M B) : M B :=
  fun w => k (fst (c w)) (snd (c w)).

Notation "x <- c ;; k" := (bind c (fun x => k))
  (at level 61, c at next level, right associativity).
Notation "c ;;; k" := (bind c (fun _ => k))
  (at level 61, right associativity).

Definition emit (e : event) : M unit :=
  fun w => (tt, {| trace := trace w ++ [e];
                   crtc_state := crtc_state w;
                   drm_event := drm_event w |}).

Definition call (c : Drm.call) : M unit := emit (EvDrm c).

Fixpoint emit_all (es : list event) : M unit :=
  match es with
  | [] => ret tt
  | e :: rest => emit e ;;; emit_all rest
  end.

(** Run a timing controller forwarder: log the calls it made. *)
Definition vtc_calls {A} (c : list vtc_call * A) : M A :=
  emit_all (map EvVtc (fst c)) ;;; ret (snd c).

Definition get_crtc_state_event : M ptr :=
  fun w => (Drm.event (crtc_state w), w).

Definition set_crtc_state_event (e : ptr) : M unit :=
  fun w => (tt, {| trace := trace w;
                   crtc_state := Drm.set_event e (crtc_state w);
                   drm_event := drm_event w |}).

Definition get_drm_event : M ptr := fun w => (drm_event w, w).

Definition set_drm_event (e : ptr) : M unit :=
  fun w => (tt, {| trace := trace w;
                   crtc_state := crtc_state w;
                   drm_event := e |}).

(** *** Bus format to colour format *)

Definition format_map : list (Z * xlnx_tpg_format) :=
  [ (MEDIA_BUS_FMT_RGB666_1X18, XTPG_FMT_RGB);
    (MEDIA_BUS_FMT_RBG888_1X24, XTPG_FMT_RGB);
    (MEDIA_BUS_FMT_UYVY8_1X16, XTPG_FMT_YUV_422);
    (MEDIA_BUS_FMT_VUY8_1X24, XTPG_FMT_YUV_444);
    (MEDIA_BUS_FMT_UYVY10_1X20, XTPG_FMT_YUV_422) ].

(** The [for] loop over [format_map], from index [i] on. *)
Fixpoint format_map_loop (map : list (Z * xlnx_tpg_format)) (bus_format : Z)
  : xlnx_tpg_format :=
  match map with
  | [] => XTPG_FMT_INVALID
  | (bf, cf) :: rest =>
      if bf =? bus_format then cf else format_map_loop rest bus_format
  end.

Definition xlnx_tpg_bus_to_color_format (bus_format : Z) : xlnx_tpg_format :=
  format_map_loop format_map bus_format.

(** *** TPG IP ops *)

Definition xlnx_tpg_write (tpg : xlnx_tpg) (offset : Z) (val : Z) : M unit :=
  emit (EvWritel (to_u32 val) (regs tpg + offset)).

(** [hw] is what the device answers to the read. *)
Definition xlnx_tpg_read (tpg : xlnx_tpg) (offset : Z) (hw : Z) : M Z :=
  emit (EvReadl (regs tpg + offset) (to_u32 hw)) ;;; ret (to_u32 hw).

Definition xlnx_tpg_set_dimensions (tpg : xlnx_tpg) (w h : Z) : M unit :=
  xlnx_tpg_write tpg XLNX_TPG_ACTIVE_WIDTH (to_u16 w) ;;;
  xlnx_tpg_write tpg XLNX_TPG_ACTIVE_HEIGHT (to_u16 h).

Definition xlnx_tpg_set_pattern (tpg : xlnx_tpg) (pattern : Z) : M unit :=
  xlnx_tpg_write tpg XLNX_TPG_PATTERN_ID pattern.

Definition xlnx_tpg_get_pattern (tpg : xlnx_tpg) (hw : Z) : M Z :=
  xlnx_tpg_read tpg XLNX_TPG_PATTERN_ID hw.

Definition xlnx_tpg_set_format (tpg : xlnx_tpg) (format : xlnx_tpg_format)
  : M unit :=
  xlnx_tpg_write tpg XLNX_TPG_COLOR_FORMAT (format_value format).

Definition xlnx_tpg_start (tpg : xlnx_tpg) : M unit :=
  xlnx_tpg_write tpg XLNX_TPG_CONTROL
    (Z.lor XLNX_TPG_START XLNX_TPG_AUTO_RESTART).

Definition xlnx_tpg_enable_irq (tpg : xlnx_tpg) : M unit :=
  xlnx_tpg_write tpg XLNX_TPG_GLOBAL_IRQ_EN 1 ;;;
  xlnx_tpg_write tpg XLNX_TPG_IP_IRQ_EN 1.

Definition xlnx_tpg_disable_irq (tpg : xlnx_tpg) : M unit :=
  xlnx_tpg_write tpg XLNX_TPG_GLOBAL_IRQ_EN 0 ;;;
  xlnx_tpg_write tpg XLNX_TPG_IP_IRQ_EN 0.

(** The section of [xlnx_tpg_irq_handler] that runs with [event_lock]
    held and interrupts off. *)
Definition finish_page_flip : M unit :=
  event <- get_drm_event ;;
  set_drm_event NULL ;;;
  if event =? NULL then ret tt
  else call (Drm.drm_crtc_send_vblank_event event) ;;;
       call Drm.drm_crtc_vblank_put.

Definition xlnx_tpg_irq_handler (tpg : xlnx_tpg) (hw : Z) : M irqreturn_t :=
  status <- xlnx_tpg_read tpg XLNX_TPG_IP_IRQ_STATUS hw ;;
  xlnx_tpg_write tpg XLNX_TPG_IP_IRQ_STATUS status ;;;
  let status := Z.land status XLNX_TPG_IP_IRQ_AP_DONE in
  if status =? 0 then ret IRQ_NONE
  else call Drm.drm_crtc_handle_vblank ;;;
       finish_page_flip ;;;
       ret IRQ_HANDLED.

(** *** DRM plane *)

Definition xlnx_tpg_plane_atomic_update (tpg : xlnx_tpg) : M unit :=
  call Drm.drm_crtc_vblank_on ;;;
  event <- get_crtc_state_event ;;
  if event =? NULL then ret tt
  else emit (EvEventPipe event (crtc_index tpg)) ;;;
       call Drm.drm_crtc_vblank_get ;;;
       set_drm_event event ;;;
       set_crtc_state_event NULL.

Definition xlnx_tpg_plane_set_property (tpg : xlnx_tpg) (property : ptr)
  (val : Z) : M Z :=
  if property =? pattern_prop tpg
  then xlnx_tpg_set_pattern tpg val ;;; ret 0
  else ret (- EINVAL).

(** *** DRM CRTC *)

Definition xlnx_tpg_crtc_check (tpg : xlnx_tpg)
  (new_state : Drm.drm_crtc_state drm_display_mode) : M Z :=
  let out :=
    call Drm.drm_atomic_add_affected_planes ;;;
    ret (drm_atomic_add_affected_planes_ret new_state) in
  if negb (Drm.enable new_state) then out
  else
    let r := drm_atomic_helper_check_crtc_primary_plane new_state in
    if negb (r =? 0) then ret r
    else if negb (output_bus_format tpg =? Drm.output_bus_format new_state)
    then ret (- EINVAL)
    else out.

Definition xlnx_tpg_crtc_enable (tpg : xlnx_tpg) : M unit :=
  mode <- (fun w => (Drm.adjusted_mode (crtc_state w), w)) ;;
  (if negb (vtc tpg =? NULL)
   then
     let vm := drm_display_mode_to_videomode mode in
     vtc_calls (xlnx_vtc_iface_set_timing (vtc tpg) vm) ;;;
     vtc_calls (xlnx_vtc_iface_enable (vtc tpg)) ;;;
     ret tt
   else ret tt) ;;;
  xlnx_tpg_set_dimensions tpg (hdisplay mode) (vdisplay mode) ;;;
  xlnx_tpg_set_format tpg (color_format tpg) ;;;
  xlnx_tpg_start tpg.

Definition xlnx_tpg_crtc_disable (tpg : xlnx_tpg) : M unit :=
  (if negb (vtc tpg =? NULL)
   then vtc_calls (xlnx_vtc_iface_disable (vtc tpg))
   else ret tt) ;;;
  event <- get_crtc_state_event ;;
  (if negb (event =? NULL)
   then call (Drm.complete_all event) ;;;
        set_crtc_state_event NULL
   else ret tt) ;;;
  call Drm.drm_crtc_vblank_off.

(** The loop over [in_bus_fmts]; the list holds its [num_in_bus_fmts]
    entries. *)
Fixpoint select_loop (tpg : xlnx_tpg) (in_bus_fmts : list Z) : Z :=
  match in_bus_fmts with
  | [] => 0
  | fmt :: rest =>
      if fmt =? output_bus_format tpg then output_bus_format tpg
      else select_loop tpg rest
  end.

Definition xlnx_tpg_crtc_select_output_bus_format (tpg : xlnx_tpg)
  (in_bus_fmts : list Z) : Z :=
  select_loop tpg in_bus_fmts.

Definition xlnx_tpg_crtc_enable_vblank (tpg : xlnx_tpg) : M Z :=
  xlnx_tpg_enable_irq tpg ;;; ret 0.

Definition xlnx_tpg_crtc_disable_vblank (tpg : xlnx_tpg) : M unit :=
  xlnx_tpg_disable_irq tpg.


(** *** Setup & Init *)

(** What the kernel answers to the calls of the probe path.
    [of_property_read_u32] is the return value and the value stored for
    ["bus-format"]; [of_parse_phandle] is the node of ["xlnx,bridge"];
    [drm_crtc_index] is the index the CRTC gets when it is initialised. *)
Record probe_env := {
  devm_kzalloc : ptr;
  devm_drm_of_get_bridge : ptr;
  of_property_read_u32 : Z * Z;
  of_parse_phandle : ptr;
  devm_drm_dev_alloc : ptr;
  drm_mode_config_init : Z;
  drm_vblank_init : Z;
  of_address_to_resource : Z;
  devm_ioremap_resource : ptr;
  irq_of_parse_and_map : Z;
  devm_request_irq : Z;
  drm_universal_plane_init : Z;
  drm_crtc_init_with_planes : Z;
  drm_crtc_index : Z;
  drm_simple_encoder_init : Z;
  drm_bridge_attach : Z;
  drm_bridge_connector_init : ptr;
  drm_connector_attach_encoder : Z;
  drm_property_create_enum : ptr;
  drm_dev_register : Z;
}.

(** The functions below return their [int] together with the [struct
    xlnx_tpg] as they leave it; [dev_err] and [dev_info] only log. *)
Definition xlnx_tpg_setup_irq (env : probe_env) (tpg : xlnx_tpg)
  : M (Z * xlnx_tpg) :=
  let tpg := set_irq (irq_of_parse_and_map env) tpg in
  if irq tpg =? 0 then ret (- EINVAL, tpg)
  else
    let r := devm_request_irq env in
    if r <? 0 then ret (r, tpg)
    else xlnx_tpg_enable_irq tpg ;;; ret (0, tpg).

Definition xlnx_tpg_map_resources (env : probe_env) (tpg : xlnx_tpg)
  : M (Z * xlnx_tpg) :=
  let r := of_address_to_resource env in
  if r <? 0 then ret (r, tpg)
  else
    let tpg := set_regs (devm_ioremap_resource env) tpg in
    if IS_ERR (regs tpg) then ret (PTR_ERR (regs tpg), tpg)
    else ret (0, tpg).

Definition xlnx_tpg_create_properties (env : probe_env) (tpg : xlnx_tpg)
  : M xlnx_tpg :=
  let tpg := set_pattern_prop (drm_property_create_enum env) tpg in
  call (Drm.drm_object_attach_property (pattern_prop tpg)
          (pattern_value XTPG_PAT_COLOR_BARS)) ;;;
  xlnx_tpg_set_pattern tpg (pattern_value XTPG_PAT_COLOR_BARS) ;;;
  ret tpg.

Definition xlnx_tpg_pipeline_init (env : probe_env) (tpg : xlnx_tpg)
  : M (Z * xlnx_tpg) :=
  r <- xlnx_tpg_map_resources env tpg ;;
  let (r, tpg) := (r : Z * xlnx_tpg) in
  if r <? 0 then ret (r, tpg)
  else
  r <- xlnx_tpg_setup_irq env tpg ;;
  let (r, tpg) := (r : Z * xlnx_tpg) in
  if r <? 0 then ret (r, tpg)
  else
  call Drm.drm_plane_helper_add ;;;
  let r := drm_universal_plane_init env in
  if negb (r =? 0) then ret (r, tpg)
  else
  call Drm.drm_crtc_helper_add ;;;
  let r := drm_crtc_init_with_planes env in
  if negb (r =? 0) then ret (r, tpg)
  else
  let tpg := set_crtc_index (drm_crtc_index env) tpg in
  let r := drm_simple_encoder_init env in
  if negb (r =? 0) then ret (r, tpg)
  else
  let r := drm_bridge_attach env in
  if r <? 0 then ret (r, tpg)
  else
  let connector := drm_bridge_connector_init env in
  if IS_ERR connector then ret (PTR_ERR connector, tpg)
  else
  let r := drm_connector_attach_encoder env in
  if r <? 0 then ret (r, tpg)
  else
  tpg <- xlnx_tpg_create_properties env tpg ;;
  ret (0, tpg).

Definition xlnx_tpg_drm_init (env : probe_env) (tpg : xlnx_tpg)
  : M (Z * xlnx_tpg) :=
  let tpg := set_drm (devm_drm_dev_alloc env) tpg in
  if IS_ERR (drm tpg) then ret (PTR_ERR (drm tpg), tpg)
  else
  let r := drm_mode_config_init env in
  if r <? 0 then ret (r, tpg)
  else
  let r := drm_vblank_init env in
  if r <? 0 then ret (r, tpg)
  else
  call Drm.drm_kms_helper_poll_init ;;;
  r <- xlnx_tpg_pipeline_init env tpg ;;
  let (r, tpg) := (r : Z * xlnx_tpg) in
  if r <? 0 then call Drm.drm_kms_helper_poll_fini ;;; ret (r, tpg)
  else
  call Drm.drm_mode_config_reset ;;;
  let r := drm_dev_register env in
  if r <? 0 then call Drm.drm_kms_helper_poll_fini ;;; ret (r, tpg)
  else ret (r, tpg).

Definition xlnx_tpg_probe (env : probe_env) (vtc_list : xlnx_vtc_list)
  : M (Z * xlnx_tpg) :=
  if devm_kzalloc env =? NULL then ret (- ENOMEM, tpg_zero)
  else
  let tpg := tpg_zero in
  let tpg := set_disp_bridge (devm_drm_of_get_bridge env) tpg in
  if IS_ERR (disp_bridge tpg) then ret (PTR_ERR (disp_bridge tpg), tpg)
  else
  if negb (fst (of_property_read_u32 env) =? 0) then ret (- EINVAL, tpg)
  else
  let tpg := set_output_bus_format (to_u32 (snd (of_property_read_u32 env)))
               tpg in
  let tpg := set_color_format
               (xlnx_tpg_bus_to_color_format (output_bus_format tpg)) tpg in
  let vtc_node := of_parse_phandle env in
  if vtc_node =? NULL then ret (- EINVAL, tpg)
  else
  let found := xlnx_of_find_vtc vtc_node (vtc tpg) vtc_list in
  let tpg := set_vtc (snd found) tpg in
  if fst found <? 0 then ret (fst found, tpg)
  else
  r <- xlnx_tpg_drm_init env tpg ;;
  let (r, tpg) := (r : Z * xlnx_tpg) in
  if r <? 0 then ret (r, tpg)
  else ret (0, tpg).

(** The same answers of the kernel, except that ["bus-format"] holds [v]. *)
Definition with_bus_format (v : Z) (env : probe_env) : probe_env :=
  {| devm_kzalloc := devm_kzalloc env;
     devm_drm_of_get_bridge := devm_drm_of_get_bridge env;
     of_property_read_u32 := (fst (of_property_read_u32 env), v);
     of_parse_phandle := of_parse_phandle env;
     devm_drm_dev_alloc := devm_drm_dev_alloc env;
     drm_mode_config_init := drm_mode_config_init env;
     drm_vblank_init := drm_vblank_init env;
     of_address_to_resource := of_address_to_resource env;
     devm_ioremap_resource := devm_ioremap_resource env;
     irq_of_parse_and_map := irq_of_parse_and_map env;
     devm_request_irq := devm_request_irq env;
     drm_universal_plane_init := drm_universal_plane_init env;
     drm_crtc_init_with_planes := drm_crtc_init_with_planes env;
     drm_crtc_index := drm_crtc_index env;
     drm_simple_encoder_init := drm_simple_encoder_init env;
     drm_bridge_attach := drm_bridge_attach env;
     drm_bridge_connector_init := drm_bridge_connector_init env;
     drm_connector_attach_encoder := drm_connector_attach_encoder env;
     drm_property_create_enum := drm_property_create_enum env;
     drm_dev_register := drm_dev_register env |}.

(** *** Reading the trace *)

(** The value last written to the register at [offset], if any. *)
Definition programmed (tpg : xlnx_tpg) (offset : Z) (tr : list event)
  : option Z :=
  fold_left
    (fun acc e =>
       match e with
       | EvWritel val addr => if addr =? regs tpg + offset then Some val else acc
       | _ => acc
       end) tr None.

(** The driver keeps no variable for the state of the pipeline; it is read
    off the trace.  The pipeline is enabled from the write that starts the
    generator, the last effect of [xlnx_tpg_crtc_enable], until
    [drm_crtc_vblank_off], the last effect of [xlnx_tpg_crtc_disable]. *)
Inductive PipelineState := Disabled | Enabled.

Definition pipeline_step (tpg : xlnx_tpg) (st : PipelineState) (e : event)
  : PipelineState :=
  match e with
  | EvWritel val addr =>
      if (addr =? regs tpg + XLNX_TPG_CONTROL) && Z.testbit val 0
      then Enabled else st
  | EvDrm Drm.drm_crtc_vblank_off => Disabled
  | _ => st
  end.

Definition pipeline_state (tpg : xlnx_tpg) (w : world) : PipelineState :=
  fold_left (pipeline_step tpg) (trace w) Disabled.

(** The events handed to [drm_crtc_send_vblank_event], oldest first. *)
Fixpoint delivered (tr : list event) : list ptr :=
  match tr with
  | [] => []
  | EvDrm (Drm.drm_crtc_send_vblank_event e) :: rest => e :: delivered rest
  | _ :: rest => delivered rest
  end.

(** The events whose completion went through [complete_all]. *)
Fixpoint completed (tr : list event) : list ptr :=
  match tr with
  | [] => []
  | EvDrm (Drm.complete_all e) :: rest => e :: completed rest
  | _ :: rest => completed rest
  end.

(** *** Interleavings of the interrupt handler and the disable path *)

(** The interrupt handler and [xlnx_tpg_crtc_disable] cut into their
    atomic steps.  A step is one access to the device or to the DRM core,
    except that the section of the handler between [spin_lock_irqsave] and
    [spin_unlock_irqrestore] is one step: nothing else that takes
    [event_lock] runs inside it.  A program counter holds the locals that
    are live at that point. *)
Inductive irq_pc :=
| IrqRead (hw : Z)
| IrqAck (status : Z)
| IrqTest (status : Z)
| IrqFlip
| IrqRet (r : irqreturn_t).

Inductive disable_pc :=
| DisVtc
| DisEvent
| DisClear
| DisOff
| DisRet.

Definition irq_step (tpg : xlnx_tpg) (pc : irq_pc) : option (M irq_pc) :=
  match pc with
  | IrqRead hw =>
      Some (status <- xlnx_tpg_read tpg XLNX_TPG_IP_IRQ_STATUS hw ;;
            ret (IrqAck status))
  | IrqAck status =>
      Some (xlnx_tpg_write tpg XLNX_TPG_IP_IRQ_STATUS status ;;;
            ret (IrqTest status))
  | IrqTest status =>
      Some (let status := Z.land status XLNX_TPG_IP_IRQ_AP_DONE in
            if status =? 0 then ret (IrqRet IRQ_NONE)
            else call Drm.drm_crtc_handle_vblank ;;; ret IrqFlip)
  | IrqFlip => Some (finish_page_flip ;;; ret (IrqRet IRQ_HANDLED))
  | IrqRet _ => None
  end.

Definition disable_step (tpg : xlnx_tpg) (pc : disable_pc)
  : option (M disable_pc) :=
  match pc with
  | DisVtc =>
      Some ((if negb (vtc tpg =? NULL)
             then vtc_calls (xlnx_vtc_iface_disable (vtc tpg))
             else ret tt) ;;;
            ret DisEvent)
  | DisEvent =>
      Some (event <- get_crtc_state_event ;;
            if negb (event =? NULL)
            then call (Drm.complete_all event) ;;; ret DisClear
            else ret DisOff)
  | DisClear => Some (set_crtc_state_event NULL ;;; ret DisOff)
  | DisOff => Some (call Drm.drm_crtc_vblank_off ;;; ret DisRet)
  | DisRet => None
  end.

Inductive thread :=
| IrqThread (pc : irq_pc)
| DisableThread (pc : disable_pc).

Definition thread_step (tpg : xlnx_tpg) (t : thread) : option (M thread) :=
  match t with
  | IrqThread pc =>
      match irq_step tpg pc with
      | Some c => Some (pc' <- c ;; ret (IrqThread pc'))
      | None => None
      end
  | DisableThread pc =>
      match disable_step tpg pc with
      | Some c => Some (pc' <- c ;; ret (DisableThread pc'))
      | None => None
      end
  end.

Record sys := {
  shared : world;
  threads : list thread;
}.

Fixpoint set_nth {A} (i : nat) (a : A) (l : list A) : list A :=
  match l, i with
  | [], _ => []
  | _ :: rest, O => a :: rest
  | b :: rest, S j => b :: set_nth j a rest
  end.

(** Thread [i] takes its next step; [None] when there is no such thread
    or it has returned. *)
Definition step (tpg : xlnx_tpg) (i : nat) (s : sys) : option sys :=
  match nth_error (threads s) i with
  | None => None
  | Some t =>
      match thread_step tpg t with
      | None => None
      | Some c =>
          let (t', w') := c (shared s) in
          Some {| shared := w'; threads := set_nth i t' (threads s) |}
      end
  end.

(** A schedule names the thread that moves at each step. *)
Fixpoint run_schedule (tpg : xlnx_tpg) (sched : list nat) (s : sys)
  : option sys :=
  match sched with
  | [] => Some s
  | i :: rest =>
      match step tpg i s with
      | Some s' => run_schedule tpg rest s'
      | None => None
      end
  end.

(** *** Relating two worlds *)

Definition with_trace (tr : list event) (w : world) : world :=
  {| trace := tr; crtc_state := crtc_state w; drm_event := drm_event w |}.

(** From [w] to [w'] the trace has only grown, and either nothing was
    handed to [drm_crtc_send_vblank_event] and [tpg->drm->event] is as it
    was, or the one event that [tpg->drm->event] held was handed over,
    once, and the slot is now null. *)
Definition slot_taken_at_most_once (w w' : world) : Prop :=
  exists new,
    trace w' = trace w ++ new /\
    ((delivered new = [] /\ drm_event w' = drm_event w) \/
     (delivered new = [drm_event w] /\
      drm_event w <> NULL /\ drm_event w' = NULL)).

(** * Properties *)

(** ** Conversions *)

Lemma to_u32_to_u16 v : to_u32 (to_u16 v) = to_u16 v.
Proof.
  unfold to_u32, to_u16.
  apply Z.mod_small.
  assert (0 <= v mod 2 ^ 16 < 2 ^ 16) by (apply Z.mod_pos_bound; lia).
  lia.
Qed.

Lemma to_u16_small v : 0 <= v < 2 ^ 16 -> to_u16 v = v.
Proof. intros H. unfold to_u16. now apply Z.mod_small. Qed.

Lemma to_u32_small v : 0 <= v < 2 ^ 32 -> to_u32 v = v.
Proof. intros H. unfold to_u32. now apply Z.mod_small. Qed.

(** ** The registry *)

Lemma find_loop_miss np l acc :
  (forall v, In v l -> of_node (mem v) <> np) ->
  find_loop np l acc = acc.
Proof.
  induction l as [|p l IH]; intros Hmiss; simpl; [reflexivity|].
  destruct (Z.eqb_spec (of_node (mem p)) np) as [E|E].
  - exfalso. apply (Hmiss p); [now left | exact E].
  - apply IH. intros v Hv. apply Hmiss. now right.
Qed.

Lemma find_loop_hit np l acc v :
  In v l ->
  of_node (mem v) = np ->
  (forall u, In u l -> of_node (mem u) = np -> u = v) ->
  find_loop np l acc = (0, v).
Proof.
  induction l as [|p l IH]; intros Hin Hv Huniq; simpl; [contradiction|].
  destruct (Z.eqb_spec (of_node (mem p)) np) as [E|E].
  - f_equal. apply Huniq; [now left | exact E].
  - destruct Hin as [->|Hin]; [contradiction|].
    apply IH; auto. intros u Hu. apply Huniq. now right.
Qed.

(** The scan either leaves ([ret], [*vtc]) as they were or stops at the
    first entry with the node looked for. *)
Lemma find_loop_cases np l acc :
  find_loop np l acc = acc \/
  exists v, In v l /\ of_node (mem v) = np /\ find_loop np l acc = (0, v).
Proof.
  induction l as [|p l IH]; simpl; [now left|].
  destruct (Z.eqb_spec (of_node (mem p)) np) as [E|E].
  - right. exists p. auto.
  - destruct IH as [IH|[v [Hin [Hv Hf]]]]; [now left|].
    right. exists v. auto.
Qed.

Lemma list_del_linked v l :
  In v l -> NoDup l ->
  exists l', list_del v l = Some l' /\ NoDup l' /\
             forall u, In u l' <-> In u l /\ u <> v.
Proof.
  only_goal.
  induction l as [|p l IH]; intros Hin Hnd; [contradiction|].
  inversion Hnd as [|? ? Hp Hl]; subst. simpl.
  destruct (Z.eqb_spec p v) as [E|E].
  - subst p. exists l. split; [reflexivity|]. split; [exact Hl|].
    intros u. split.
    + intros Hu. split; [now right|]. intros E. subst u. contradiction.
    + intros [[E|Hu] Hne]; [congruence | exact Hu].
  - destruct Hin as [E'|Hin]; [contradiction|].
    destruct (IH Hin Hl) as [l' [Hdel [Hnd' Hmem]]].
    rewrite Hdel. exists (p :: l'). split; [reflexivity|]. split.
    + constructor; auto. intros Hp'. apply Hmem in Hp'. tauto.
    + intros u. split.
      * intros [E'|Hu]; [split; [now left | congruence]|].
        apply Hmem in Hu. split; [right|]; tauto.
      * intros [[E'|Hu] Hne]; [now left|]. right. apply Hmem. tauto.
Qed.

Lemma run_app ops o l :
  run (ops ++ [o]) l =
  match run ops l with
  | Some l' => apply_op o l'
  | None => None
  end.
Proof.
  revert l. induction ops as [|o' ops IH]; intros l; simpl.
  - destruct (apply_op o l); reflexivity.
  - destruct (apply_op o' l); [apply IH | reflexivity].
Qed.

Lemma registered_from_app acc ops o v :
  registered_from acc (ops ++ [o]) v =
  registered_from (registered_from acc ops v) [o] v.
Proof.
  revert acc. induction ops as [|o' ops IH]; intros acc; [reflexivity|].
  destruct o'; simpl; apply IH.
Qed.

Lemma registered_register ops u v :
  registered (ops ++ [Register u]) v =
  if u =? v then true else registered ops v.
Proof. unfold registered. now rewrite registered_from_app. Qed.

Lemma registered_unregister ops u v :
  registered (ops ++ [Unregister u]) v =
  if u =? v then false else registered ops v.
Proof. unfold registered. now rewrite registered_from_app. Qed.

(** After a history on distinct identifiers the list holds exactly the
    handles that the history leaves registered, each once. *)
Lemma run_distinct_history ops :
  distinct_history ops ->
  exists l,
    run ops (snd (xlnx_vtc_list_init vtc_list0)) = Some l /\
    initialized l = true /\
    NoDup (head l) /\
    forall v, In v (head l) <-> registered ops v = true.
Proof.
  induction 1 as [|ops vtc Hd IH Hv Hnode Hfresh|ops vtc Hd IH Hreg].
  - eexists. simpl. split; [reflexivity|]. split; [reflexivity|].
    split; [constructor|]. intros v. simpl. unfold registered. simpl.
    split; [contradiction | discriminate].
  - destruct IH as [l [Hrun [Hinit [Hnd Hmem]]]].
    rewrite run_app, Hrun. simpl. unfold xlnx_vtc_register.
    destruct (Z.eqb_spec vtc NULL) as [E|_]; [contradiction|].
    destruct (Z.eqb_spec (of_node (mem vtc)) NULL) as [E|_]; [contradiction|].
    rewrite Hinit. simpl. eexists. split; [reflexivity|]. simpl.
    split; [reflexivity|]. unfold list_add_tail. split.
    + apply NoDup_app; [exact Hnd | repeat constructor; simpl; tauto |].
      intros u Hu [E|[]]. subst u.
      apply Hmem in Hu. now apply (Hfresh vtc Hu).
    + intros v. rewrite registered_register, in_app_iff, Hmem. simpl.
      destruct (Z.eqb_spec vtc v); intuition congruence.
  - destruct IH as [l [Hrun [Hinit [Hnd Hmem]]]].
    rewrite run_app, Hrun. simpl. unfold xlnx_vtc_unregister.
    rewrite Hinit. simpl.
    destruct (list_del_linked vtc (head l)) as [l' [Hdel [Hnd' Hmem']]];
      [now apply Hmem | exact Hnd |].
    assert (Hlive : forall v, In v (head l) /\ v <> vtc <->
                              registered (ops ++ [Unregister vtc]) v = true).
    { intros v. rewrite registered_unregister, Hmem.
      destruct (Z.eqb_spec vtc v); intuition congruence. }
    destruct (Z.eqb_spec vtc NULL) as [E|Hnn]; simpl.
    + (* a null handle is never linked *)
      exfalso. clear - Hd Hreg E. subst vtc.
      induction Hd as [|ops u _ IH Hu _ _|ops u _ IH _].
      * discriminate.
      * rewrite registered_register in Hreg.
        destruct (Z.eqb_spec u NULL); [contradiction | auto].
      * rewrite registered_unregister in Hreg.
        destruct (Z.eqb_spec u NULL); [discriminate | auto].
    + rewrite Hdel. eexists. split; [reflexivity|]. simpl.
      split; [reflexivity|]. split; [exact Hnd'|].
      intros v. rewrite Hmem'. apply Hlive.
Qed.

Lemma distinct_history_nodes ops :
  distinct_history ops ->
  forall u v, registered ops u = true -> registered ops v = true ->
              of_node (mem u) = of_node (mem v) -> u = v.
Proof.
  induction 1 as [|ops vtc Hd IH Hv Hnode Hfresh|ops vtc Hd IH Hreg];
    intros u v Hu Hv' Heq.
  - discriminate.
  - rewrite registered_register in Hu, Hv'.
    destruct (Z.eqb_spec vtc u) as [Eu|Eu], (Z.eqb_spec vtc v) as [Ev|Ev].
    + congruence.
    + subst u. exfalso. now apply (Hfresh v Hv').
    + subst v. exfalso. now apply (Hfresh u Hu).
    + now apply IH.
  - rewrite registered_unregister in Hu, Hv'.
    destruct (Z.eqb_spec vtc u), (Z.eqb_spec vtc v); try discriminate.
    now apply IH.
Qed.

Lemma find_loop_app np l1 l2 acc :
  find_loop np (l1 ++ l2) acc = find_loop np l1 (find_loop np l2 acc).
Proof.
  induction l1 as [|p l1 IH]; simpl; [reflexivity|].
  destruct (of_node (mem p) =? np); [reflexivity | exact IH].
Qed.

(** C3, as the code has it.  After every history of register and
    unregister calls on handles with distinct identifiers in which only a
    currently registered handle is unregistered, started on the freshly
    initialised registry,
    every call has run, and [xlnx_of_find_vtc] returns 0 together with the
    handle itself for the node of each currently registered handle, and
    [-EPROBE_DEFER] with a null handle for every node that no currently
    registered handle has, which covers nodes never registered and nodes
    whose handle was unregistered.  On a registry that is not initialised it
    returns [-EPROBE_DEFER] for every node. *)
Theorem find_after_history ops :
  distinct_history ops ->
  exists l,
    run ops (snd (xlnx_vtc_list_init vtc_list0)) = Some l /\
    (forall v out, registered ops v = true ->
       xlnx_of_find_vtc (of_node (mem v)) out l = (0, v)) /\
    (forall np out,
       (forall v, registered ops v = true -> of_node (mem v) <> np) ->
       xlnx_of_find_vtc np out l = (- EPROBE_DEFER, NULL)) /\
    (forall np out l0, initialized l0 = false ->
       xlnx_of_find_vtc np out l0 = (- EPROBE_DEFER, NULL)).
Proof.
  intros Hd.
  destruct (run_distinct_history ops Hd) as [l [Hrun [Hinit [Hnd Hmem]]]].
  exists l. split; [exact Hrun|]. split; [|split].
  - intros v out Hv. unfold xlnx_of_find_vtc. rewrite Hinit. simpl.
    apply find_loop_hit; [now apply Hmem | reflexivity |].
    intros u Hu Heq. apply (distinct_history_nodes ops Hd); auto.
    now apply Hmem.
  - intros np out Hmiss. unfold xlnx_of_find_vtc. rewrite Hinit. simpl.
    apply find_loop_miss. intros v Hv. apply Hmiss. now apply Hmem.
  - intros np out l0 Hl0. unfold xlnx_of_find_vtc. now rewrite Hl0.
Qed.

(** C6. [xlnx_vtc_register] returns [-EINVAL] and leaves the registry alone
    when the handle or its device node is null; otherwise it returns
    [-EFAULT] and leaves the registry alone when the registry is not
    initialised; otherwise it returns 0 and the handle is the new last
    entry of the list.  A lookup of the handle's node then succeeds with a
    handle of that node, with the handle itself when no older entry has the
    same node, and lookups of other nodes answer as before. *)
Theorem register_spec vtc l :
  ((vtc = NULL \/ of_node (mem vtc) = NULL) ->
   xlnx_vtc_register vtc l = (- EINVAL, l)) /\
  (vtc <> NULL -> of_node (mem vtc) <> NULL -> initialized l = false ->
   xlnx_vtc_register vtc l = (- EFAULT, l)) /\
  (vtc <> NULL -> of_node (mem vtc) <> NULL -> initialized l = true ->
   exists l',
     xlnx_vtc_register vtc l = (0, l') /\
     head l' = head l ++ [vtc] /\
     initialized l' = true /\
     (forall out, exists v,
        xlnx_of_find_vtc (of_node (mem vtc)) out l' = (0, v) /\
        In v (head l') /\ of_node (mem v) = of_node (mem vtc)) /\
     ((forall u, In u (head l) -> of_node (mem u) <> of_node (mem vtc)) ->
      forall out, xlnx_of_find_vtc (of_node (mem vtc)) out l' = (0, vtc)) /\
     (forall np out, np <> of_node (mem vtc) ->
        xlnx_of_find_vtc np out l' = xlnx_of_find_vtc np out l)).
Proof.
  unfold xlnx_vtc_register. split; [|split].
  - intros [E|E].
    + subst vtc. reflexivity.
    + rewrite E. simpl. now rewrite orb_true_r.
  - intros Hv Hn Hl.
    destruct (Z.eqb_spec vtc NULL); [contradiction|].
    destruct (Z.eqb_spec (of_node (mem vtc)) NULL); [contradiction|].
    simpl. now rewrite Hl.
  - intros Hv Hn Hl.
    destruct (Z.eqb_spec vtc NULL); [contradiction|].
    destruct (Z.eqb_spec (of_node (mem vtc)) NULL); [contradiction|].
    simpl. rewrite Hl. simpl. eexists. split; [reflexivity|]. simpl.
    unfold list_add_tail, xlnx_of_find_vtc. simpl. rewrite Hl. simpl.
    split; [reflexivity|]. split; [reflexivity|]. split; [|split].
    + intros out.
      destruct (find_loop_cases (of_node (mem vtc)) (head l ++ [vtc])
                  (- EPROBE_DEFER, NULL)) as [Hc|[v [Hin [Hnode Hf]]]].
      * exfalso. rewrite find_loop_app in Hc. simpl in Hc.
        rewrite Z.eqb_refl in Hc.
        destruct (find_loop_cases (of_node (mem vtc)) (head l) (0, vtc))
          as [Hc'|[v [_ [_ Hc']]]]; rewrite Hc' in Hc; discriminate.
      * exists v. auto.
    + intros Hfresh out. rewrite find_loop_app. simpl. rewrite Z.eqb_refl.
      now apply find_loop_miss.
    + intros np out Hnp. rewrite find_loop_app. simpl.
      destruct (Z.eqb_spec (of_node (mem vtc)) np); [congruence | reflexivity].
Qed.

(** C10. Whenever [xlnx_of_find_vtc] returns a value other than 0, that
    value is [-EPROBE_DEFER] and [*vtc] is null after the call, whatever it
    held before. *)
Theorem find_failure_clears_out np out l :
  fst (xlnx_of_find_vtc np out l) <> 0 ->
  xlnx_of_find_vtc np out l = (- EPROBE_DEFER, NULL).
Proof.
  unfold xlnx_of_find_vtc. destruct (initialized l); cbn [negb];
    [|reflexivity].
  destruct (find_loop_cases np (head l) (- EPROBE_DEFER, NULL))
    as [Hc|[v [_ [_ Hc]]]]; rewrite Hc; cbn [fst];
    [reflexivity | congruence].
Qed.

(** ** Bus formats *)

(** C5. [xlnx_tpg_bus_to_color_format] is a function of its argument alone,
    defined on every value.  The five media bus codes being distinct, it
    maps RGB666_1X18 and RBG888_1X24 to RGB, UYVY8_1X16 and UYVY10_1X20 to
    YUV 4:2:2, VUY8_1X24 to YUV 4:4:4, and every other value to
    [XTPG_FMT_INVALID]. *)
Theorem bus_to_color_format_table :
  NoDup [MEDIA_BUS_FMT_RGB666_1X18; MEDIA_BUS_FMT_RBG888_1X24;
         MEDIA_BUS_FMT_UYVY8_1X16; MEDIA_BUS_FMT_VUY8_1X24;
         MEDIA_BUS_FMT_UYVY10_1X20] ->
  xlnx_tpg_bus_to_color_format MEDIA_BUS_FMT_RGB666_1X18 = XTPG_FMT_RGB /\
  xlnx_tpg_bus_to_color_format MEDIA_BUS_FMT_RBG888_1X24 = XTPG_FMT_RGB /\
  xlnx_tpg_bus_to_color_format MEDIA_BUS_FMT_UYVY8_1X16 = XTPG_FMT_YUV_422 /\
  xlnx_tpg_bus_to_color_format MEDIA_BUS_FMT_VUY8_1X24 = XTPG_FMT_YUV_444 /\
  xlnx_tpg_bus_to_color_format MEDIA_BUS_FMT_UYVY10_1X20 = XTPG_FMT_YUV_422 /\
  forall bus_format,
    ~ In bus_format [MEDIA_BUS_FMT_RGB666_1X18; MEDIA_BUS_FMT_RBG888_1X24;
                     MEDIA_BUS_FMT_UYVY8_1X16; MEDIA_BUS_FMT_VUY8_1X24;
                     MEDIA_BUS_FMT_UYVY10_1X20] ->
    xlnx_tpg_bus_to_color_format bus_format = XTPG_FMT_INVALID.
Proof.
  only_goal.
  intros Hnd.
  assert (Hne : MEDIA_BUS_FMT_RGB666_1X18 <> MEDIA_BUS_FMT_UYVY8_1X16 /\
                MEDIA_BUS_FMT_RBG888_1X24 <> MEDIA_BUS_FMT_UYVY8_1X16 /\
                MEDIA_BUS_FMT_RGB666_1X18 <> MEDIA_BUS_FMT_VUY8_1X24 /\
                MEDIA_BUS_FMT_RBG888_1X24 <> MEDIA_BUS_FMT_VUY8_1X24 /\
                MEDIA_BUS_FMT_UYVY8_1X16 <> MEDIA_BUS_FMT_VUY8_1X24 /\
                MEDIA_BUS_FMT_RGB666_1X18 <> MEDIA_BUS_FMT_UYVY10_1X20 /\
                MEDIA_BUS_FMT_RBG888_1X24 <> MEDIA_BUS_FMT_UYVY10_1X20 /\
                MEDIA_BUS_FMT_VUY8_1X24 <> MEDIA_BUS_FMT_UYVY10_1X20).
  { repeat match goal with
           | H : NoDup (_ :: _) |- _ => inversion H; clear H; subst
           end.
    simpl in *. repeat split; intros E; rewrite E in *; tauto. }
  destruct Hne as (N1 & N2 & N3 & N4 & N5 & N6 & N7 & N8).
  unfold xlnx_tpg_bus_to_color_format, format_map. simpl.
  repeat split.
  - now rewrite Z.eqb_refl.
  - rewrite Z.eqb_refl. now destruct (_ =? _).
  - rewrite Z.eqb_refl.
    destruct (Z.eqb_spec MEDIA_BUS_FMT_RGB666_1X18 MEDIA_BUS_FMT_UYVY8_1X16);
      [contradiction|].
    destruct (Z.eqb_spec MEDIA_BUS_FMT_RBG888_1X24 MEDIA_BUS_FMT_UYVY8_1X16);
      [contradiction | reflexivity].
  - rewrite Z.eqb_refl.
    destruct (Z.eqb_spec MEDIA_BUS_FMT_RGB666_1X18 MEDIA_BUS_FMT_VUY8_1X24);
      [contradiction|].
    destruct (Z.eqb_spec MEDIA_BUS_FMT_RBG888_1X24 MEDIA_BUS_FMT_VUY8_1X24);
      [contradiction|].
    destruct (Z.eqb_spec MEDIA_BUS_FMT_UYVY8_1X16 MEDIA_BUS_FMT_VUY8_1X24);
      [contradiction | reflexivity].
  - rewrite Z.eqb_refl.
    destruct (Z.eqb_spec MEDIA_BUS_FMT_RGB666_1X18 MEDIA_BUS_FMT_UYVY10_1X20);
      [contradiction|].
    destruct (Z.eqb_spec MEDIA_BUS_FMT_RBG888_1X24 MEDIA_BUS_FMT_UYVY10_1X20);
      [contradiction|].
    destruct (Z.eqb_spec MEDIA_BUS_FMT_VUY8_1X24 MEDIA_BUS_FMT_UYVY10_1X20);
      [contradiction|].
    now destruct (_ =? _).
  - intros bus_format Hout. simpl in Hout.
    repeat match goal with
           | |- context [?a =? bus_format] =>
               destruct (Z.eqb_spec a bus_format); [exfalso; tauto|]
           end.
    reflexivity.
Qed.

(** ** Output format selection *)

Lemma select_loop_cases tpg fmts :
  (In (output_bus_format tpg) fmts /\
   select_loop tpg fmts = output_bus_format tpg) \/
  (~ In (output_bus_format tpg) fmts /\ select_loop tpg fmts = 0).
Proof.
  only_goal.
  induction fmts as [|f fmts IH]; simpl.
  - right. tauto.
  - destruct (Z.eqb_spec f (output_bus_format tpg)) as [E|E].
    + left. auto.
    + destruct IH as [[Hin Hsel]|[Hout Hsel]]; [left | right];
        split; auto; tauto.
Qed.

(** C9. For every list of candidate bus formats,
    [xlnx_tpg_crtc_select_output_bus_format] returns the output bus format
    fixed at probe time if it occurs in the list and 0 otherwise; on the
    empty list it returns 0. *)
Theorem select_output_bus_format_spec tpg in_bus_fmts :
  (In (output_bus_format tpg) in_bus_fmts ->
   xlnx_tpg_crtc_select_output_bus_format tpg in_bus_fmts =
   output_bus_format tpg) /\
  (~ In (output_bus_format tpg) in_bus_fmts ->
   xlnx_tpg_crtc_select_output_bus_format tpg in_bus_fmts = 0) /\
  xlnx_tpg_crtc_select_output_bus_format tpg [] = 0.
Proof.
  unfold xlnx_tpg_crtc_select_output_bus_format.
  destruct (select_loop_cases tpg in_bus_fmts) as [[Hin Hsel]|[Hout Hsel]];
    repeat split; try reflexivity; intros; try contradiction; exact Hsel.
Qed.

(** ** The effect monad *)

Lemma emit_all_run es w :
  emit_all es w = (tt, with_trace (trace w ++ es) w).
Proof.
  revert w. induction es as [|e es IH]; intros w.
  - simpl. unfold ret, with_trace. rewrite app_nil_r. now destruct w.
  - simpl. unfold bind, emit. rewrite IH. unfold with_trace. simpl.
    now rewrite <- app_assoc.
Qed.

Lemma vtc_calls_run {A} (c : list vtc_call * A) w :
  vtc_calls c w = (snd c, with_trace (trace w ++ map EvVtc (fst c)) w).
Proof. unfold vtc_calls, bind. now rewrite emit_all_run. Qed.

Lemma xlnx_tpg_write_run tpg offset val w :
  xlnx_tpg_write tpg offset val w =
  (tt, with_trace (trace w ++ [EvWritel (to_u32 val) (regs tpg + offset)]) w).
Proof. reflexivity. Qed.

Lemma to_u32_format_value f : to_u32 (format_value f) = format_value f.
Proof. now destruct f. Qed.

Lemma to_u32_start :
  to_u32 (Z.lor XLNX_TPG_START XLNX_TPG_AUTO_RESTART) = 0x81.
Proof. reflexivity. Qed.

(** ** Reading the trace *)

Lemma delivered_app a b : delivered (a ++ b) = delivered a ++ delivered b.
Proof.
  induction a as [|[| | | |[]] a IH]; simpl; rewrite ?IH; reflexivity.
Qed.

Lemma completed_app a b : completed (a ++ b) = completed a ++ completed b.
Proof.
  induction a as [|[| | | |[]] a IH]; simpl; rewrite ?IH; reflexivity.
Qed.

Lemma delivered_vtc l : delivered (map EvVtc l) = [].
Proof. induction l; simpl; auto. Qed.

Lemma completed_vtc l : completed (map EvVtc l) = [].
Proof. induction l; simpl; auto. Qed.

(** ** Check *)

(** C4. When the proposed CRTC state enables the pipeline and its output
    bus format differs from the one fixed at probe time,
    [xlnx_tpg_crtc_check] rejects it: it returns the error of the primary
    plane helper if that helper fails and [-EINVAL] otherwise, hence
    [-EINVAL] whenever the helper keeps to its two results 0 and
    [-EINVAL].  The check leaves the trace, [crtc->state] and the pending
    event as they were, so it touches no register and the state of the
    pipeline is what it was. *)
Theorem crtc_check_rejects_format_mismatch tpg new_state w :
  Drm.enable new_state = true ->
  Drm.output_bus_format new_state <> output_bus_format tpg ->
  let primary := drm_atomic_helper_check_crtc_primary_plane new_state in
  let r := fst (xlnx_tpg_crtc_check tpg new_state w) in
  let w' := snd (xlnx_tpg_crtc_check tpg new_state w) in
  r = (if primary =? 0 then - EINVAL else primary) /\
  r <> 0 /\
  (primary = 0 \/ primary = - EINVAL -> r = - EINVAL) /\
  w' = w /\
  pipeline_state tpg w' = pipeline_state tpg w.
Proof.
  intros Hen Hfmt primary r w'. subst r w'. unfold xlnx_tpg_crtc_check.
  rewrite Hen. cbn [negb]. fold primary.
  destruct (Z.eqb_spec primary 0) as [E|E]; cbn [negb].
  - destruct (Z.eqb_spec (output_bus_format tpg)
                (Drm.output_bus_format new_state)) as [E'|_];
      [congruence|].
    cbn. repeat split; try reflexivity; try discriminate.
  - cbn. repeat split; auto. intros [E'|E']; [contradiction | exact E'].
Qed.

(** ** Enable *)

(** C7. With a timing controller resolved at probe time,
    [xlnx_tpg_crtc_enable] appends to the trace, in this order: the call
    of the controller's [set_timing] with the converted mode and the call
    of its [enable], each made when the controller has the callback; the
    write of the mode's width to the width register and of its height to
    the height register; the write of the colour format fixed at probe
    time; and the write of START | AUTO_RESTART to the control register.
    It changes nothing else.  For a controller with both callbacks these
    are exactly six effects. *)
Theorem crtc_enable_order tpg w :
  vtc tpg <> NULL ->
  let mode := Drm.adjusted_mode (crtc_state w) in
  let vm := drm_display_mode_to_videomode mode in
  let w' := snd (xlnx_tpg_crtc_enable tpg w) in
  let writes :=
    [ EvWritel (to_u16 (hdisplay mode)) (regs tpg + XLNX_TPG_ACTIVE_WIDTH);
      EvWritel (to_u16 (vdisplay mode)) (regs tpg + XLNX_TPG_ACTIVE_HEIGHT);
      EvWritel (format_value (color_format tpg))
               (regs tpg + XLNX_TPG_COLOR_FORMAT);
      EvWritel (Z.lor XLNX_TPG_START XLNX_TPG_AUTO_RESTART)
               (regs tpg + XLNX_TPG_CONTROL) ] in
  trace w' =
    trace w ++
    match set_timing (mem (vtc tpg)) with
    | Some _ => [EvVtc (CallSetTiming (vtc tpg) vm)]
    | None => []
    end ++
    match enable (mem (vtc tpg)) with
    | Some _ => [EvVtc (CallEnable (vtc tpg))]
    | None => []
    end ++ writes /\
  (forall f g,
     set_timing (mem (vtc tpg)) = Some f -> enable (mem (vtc tpg)) = Some g ->
     trace w' =
       trace w ++ EvVtc (CallSetTiming (vtc tpg) vm) ::
                  EvVtc (CallEnable (vtc tpg)) :: writes) /\
  crtc_state w' = crtc_state w /\
  drm_event w' = drm_event w.
Proof.
  intros Hvtc mode vm w' writes.
  assert (Htrace :
    trace w' =
      trace w ++
      match set_timing (mem (vtc tpg)) with
      | Some _ => [EvVtc (CallSetTiming (vtc tpg) vm)]
      | None => []
      end ++
      match enable (mem (vtc tpg)) with
      | Some _ => [EvVtc (CallEnable (vtc tpg))]
      | None => []
      end ++ writes /\
    crtc_state w' = crtc_state w /\ drm_event w' = drm_event w).
  { subst w' writes. unfold xlnx_tpg_crtc_enable.
    destruct (Z.eqb_spec (vtc tpg) NULL) as [E|E]; [contradiction|].
    cbn [negb].
    unfold xlnx_tpg_set_dimensions, xlnx_tpg_set_format, xlnx_tpg_start.
    unfold bind, ret. cbn [fst snd]. fold mode. fold vm.
    rewrite !xlnx_tpg_write_run, !vtc_calls_run.
    unfold with_trace. cbn [trace crtc_state drm_event fst snd].
    rewrite !to_u32_to_u16, to_u32_format_value.
    unfold xlnx_vtc_iface_set_timing, xlnx_vtc_iface_enable.
    destruct (Z.eqb_spec (vtc tpg) NULL) as [E'|_]; [contradiction|].
    split; [|split; reflexivity].
    destruct (set_timing (mem (vtc tpg))), (enable (mem (vtc tpg)));
      cbn [fst map app]; rewrite <- ?app_assoc; reflexivity. }
  destruct Htrace as [Htrace [Hcs Hev]].
  split; [exact Htrace|]. split; [|split; assumption].
  intros f g Hf Hg. rewrite Htrace, Hf, Hg. reflexivity.
Qed.

Lemma pipeline_state_app tpg w es :
  pipeline_state tpg (with_trace (trace w ++ es) w) =
  fold_left (pipeline_step tpg) es (pipeline_state tpg w).
Proof. unfold pipeline_state, with_trace. simpl. apply fold_left_app. Qed.

(** [xlnx_tpg_crtc_enable] ends with the write that starts the generator:
    the pipeline is enabled when it returns. *)
Lemma crtc_enable_enables tpg w :
  pipeline_state tpg (snd (xlnx_tpg_crtc_enable tpg w)) = Enabled.
Proof.
  unfold xlnx_tpg_crtc_enable, xlnx_tpg_start, bind.
  rewrite xlnx_tpg_write_run. cbn [snd].
  rewrite pipeline_state_app. cbn [fold_left pipeline_step].
  rewrite Z.eqb_refl. reflexivity.
Qed.

Lemma programmed_app tpg offset a b :
  programmed tpg offset (a ++ b) =
  match programmed tpg offset b with
  | Some v => Some v
  | None => programmed tpg offset a
  end.
Proof.
  unfold programmed. rewrite fold_left_app.
  generalize (fold_left
    (fun acc e =>
       match e with
       | EvWritel val addr => if addr =? regs tpg + offset then Some val else acc
       | _ => acc
       end) a None).
  induction b as [|e b IH] using rev_ind; intros o.
  - simpl. now destruct o.
  - rewrite !fold_left_app. simpl.
    destruct e as [| val addr | | |]; try apply IH.
    destruct (addr =? regs tpg + offset); [reflexivity | apply IH].
Qed.

(** The registers after [xlnx_tpg_crtc_enable]: the width and height of
    the mode, the colour format fixed at probe time, START and
    AUTO_RESTART. *)
Lemma crtc_enable_programs tpg w :
  let mode := Drm.adjusted_mode (crtc_state w) in
  let tr := trace (snd (xlnx_tpg_crtc_enable tpg w)) in
  programmed tpg XLNX_TPG_ACTIVE_WIDTH tr = Some (to_u16 (hdisplay mode)) /\
  programmed tpg XLNX_TPG_ACTIVE_HEIGHT tr = Some (to_u16 (vdisplay mode)) /\
  programmed tpg XLNX_TPG_COLOR_FORMAT tr =
    Some (format_value (color_format tpg)) /\
  programmed tpg XLNX_TPG_CONTROL tr = Some 0x81.
Proof.
  intros mode tr. subst tr.
  unfold xlnx_tpg_crtc_enable, xlnx_tpg_set_dimensions, xlnx_tpg_set_format,
    xlnx_tpg_start, bind.
  rewrite !xlnx_tpg_write_run. unfold with_trace.
  cbn [fst snd trace]. fold mode.
  rewrite !to_u32_to_u16, to_u32_format_value, to_u32_start.
  rewrite <- !app_assoc. cbn [app].
  repeat split; rewrite programmed_app; unfold programmed;
    cbn [fold_left];
    unfold XLNX_TPG_ACTIVE_WIDTH, XLNX_TPG_ACTIVE_HEIGHT,
      XLNX_TPG_COLOR_FORMAT, XLNX_TPG_CONTROL;
    repeat match goal with
           | |- context [?a =? ?b] =>
               destruct (Z.eqb_spec a b); try lia
           end; reflexivity.
Qed.

(** ** Disable *)

(** C2, as the code has it.  [xlnx_tpg_crtc_disable] appends to the trace
    the call of the timing controller's [disable] (when there is a
    controller and it has the callback), then [complete_all] on the event
    held in [crtc->state->event] (when there is one), then
    [drm_crtc_vblank_off]; it leaves [crtc->state->event] null.  The slot
    that the plane update arms, [tpg->drm->event], is left as it was: no
    effect of the disable path names the event in it unless
    [crtc->state->event] holds the same event. *)
Theorem crtc_disable_completes_state_event tpg w :
  let w' := snd (xlnx_tpg_crtc_disable tpg w) in
  let event := Drm.event (crtc_state w) in
  trace w' =
    trace w ++
    map EvVtc (fst (xlnx_vtc_iface_disable (vtc tpg))) ++
    (if event =? NULL then [] else [EvDrm (Drm.complete_all event)]) ++
    [EvDrm Drm.drm_crtc_vblank_off] /\
  completed (trace w') =
    completed (trace w) ++ (if event =? NULL then [] else [event]) /\
  delivered (trace w') = delivered (trace w) /\
  Drm.event (crtc_state w') = NULL /\
  drm_event w' = drm_event w /\
  pipeline_state tpg w' = Disabled.
Proof.
  intros w' event.
  assert (Hvtc : forall w0 : world,
    (if negb (vtc tpg =? NULL)
     then vtc_calls (xlnx_vtc_iface_disable (vtc tpg))
     else ret tt) w0 =
    (tt, with_trace
           (trace w0 ++ map EvVtc (fst (xlnx_vtc_iface_disable (vtc tpg))))
           w0)).
  { intros w0. destruct (Z.eqb_spec (vtc tpg) NULL) as [E|E]; cbn [negb].
    - unfold xlnx_vtc_iface_disable. rewrite E. cbn.
      unfold ret, with_trace. rewrite app_nil_r. now destruct w0.
    - rewrite vtc_calls_run.
      now destruct (snd (xlnx_vtc_iface_disable (vtc tpg))). }
  assert (Htrace :
    trace w' =
      trace w ++
      map EvVtc (fst (xlnx_vtc_iface_disable (vtc tpg))) ++
      (if event =? NULL then [] else [EvDrm (Drm.complete_all event)]) ++
      [EvDrm Drm.drm_crtc_vblank_off] /\
    Drm.event (crtc_state w') = NULL /\ drm_event w' = drm_event w).
  { subst w' event. unfold xlnx_tpg_crtc_disable, bind. rewrite Hvtc.
    unfold get_crtc_state_event, with_trace. cbn [fst snd crtc_state].
    destruct (Z.eqb_spec (Drm.event (crtc_state w)) NULL) as [E|E];
      cbn [negb]; unfold ret, call, emit, set_crtc_state_event; cbn;
      rewrite <- ?app_assoc; repeat split; auto. }
  destruct Htrace as [Htrace [Hcs Hev]].
  split; [exact Htrace|].
  split; [|split; [|split; [|split]]]; auto.
  - rewrite Htrace, !completed_app, completed_vtc.
    destruct (event =? NULL); simpl; now rewrite ?app_nil_r.
  - rewrite Htrace, !delivered_app, delivered_vtc.
    destruct (event =? NULL); simpl; now rewrite ?app_nil_r.
  - unfold pipeline_state. rewrite Htrace, !app_assoc, fold_left_app.
    reflexivity.
Qed.

(** ** Interrupt hand-off *)

Lemma slot_same w new :
  delivered new = [] ->
  slot_taken_at_most_once w (with_trace (trace w ++ new) w).
Proof. intros H. exists new. split; [reflexivity|]. left. now split. Qed.

Lemma slot_refl w : slot_taken_at_most_once w w.
Proof. exists []. rewrite app_nil_r. split; [reflexivity|]. left. now split. Qed.

Lemma slot_trans w1 w2 w3 :
  slot_taken_at_most_once w1 w2 ->
  slot_taken_at_most_once w2 w3 ->
  slot_taken_at_most_once w1 w3.
Proof.
  intros [n1 [T1 H1]] [n2 [T2 H2]]. exists (n1 ++ n2).
  split; [now rewrite T2, T1, app_assoc|].
  rewrite delivered_app.
  destruct H1 as [[D1 S1]|[D1 [N1 S1]]], H2 as [[D2 S2]|[D2 [N2 S2]]];
    rewrite D1, D2; simpl.
  - left. split; congruence.
  - right. rewrite <- S1. auto.
  - right. split; [reflexivity|]. split; congruence.
  - contradiction.
Qed.

(** The locked section of the handler empties the slot and hands over
    exactly what it held, if anything. *)
Lemma finish_page_flip_slot w :
  slot_taken_at_most_once w (snd (finish_page_flip w)) /\
  drm_event (snd (finish_page_flip w)) = NULL.
Proof.
  unfold finish_page_flip, bind, get_drm_event, set_drm_event.
  cbn [fst snd].
  destruct (Z.eqb_spec (drm_event w) NULL) as [E|E].
  - split; [|reflexivity]. exists []. cbn. rewrite app_nil_r.
    split; [reflexivity|]. left. split; congruence.
  - split; [|reflexivity].
    exists [EvDrm (Drm.drm_crtc_send_vblank_event (drm_event w));
            EvDrm Drm.drm_crtc_vblank_put].
    cbn. rewrite <- app_assoc. split; [reflexivity|]. right. auto.
Qed.

Lemma thread_step_slot tpg t c w :
  thread_step tpg t = Some c ->
  slot_taken_at_most_once w (snd (c w)).
Proof.
  destruct t as [pc|pc]; destruct pc; simpl; intros H;
    inversion H; subst c; clear H; unfold bind; cbn [fst snd ret].
  - (* read of the status register *)
    unfold xlnx_tpg_read, bind, ret. cbn [fst snd]. now apply slot_same.
  - (* write back *)
    rewrite xlnx_tpg_write_run. cbn [snd]. now apply slot_same.
  - (* mask and test *)
    destruct (_ =? 0); cbn [snd]; [apply slot_refl|].
    unfold bind, ret, call. cbn [snd]. now apply (slot_same w [_]).
  - (* locked section *)
    apply finish_page_flip_slot.
  - (* timing controller off *)
    destruct (negb _); [|apply slot_refl].
    rewrite vtc_calls_run. cbn [snd]. apply slot_same, delivered_vtc.
  - (* complete the pending state event *)
    unfold get_crtc_state_event. cbn [fst snd].
    destruct (negb _); [|apply slot_refl].
    unfold bind, ret, call. cbn [snd]. now apply (slot_same w [_]).
  - (* clear crtc->state->event *)
    exists []. cbn. rewrite app_nil_r. split; [reflexivity|]. left. now split.
  - (* vblank off *)
    unfold call. now apply (slot_same w [_]).
Qed.

Lemma step_slot tpg i s s' :
  step tpg i s = Some s' ->
  slot_taken_at_most_once (shared s) (shared s').
Proof.
  unfold step. destruct (nth_error (threads s) i) as [t|]; [|discriminate].
  destruct (thread_step tpg t) as [c|] eqn:Hc; [|discriminate].
  destruct (c (shared s)) as [t' w'] eqn:Hw. intros H. inversion H. simpl.
  replace w' with (snd (c (shared s))) by now rewrite Hw.
  now apply (thread_step_slot tpg t).
Qed.

(** C8. Along every interleaving of steps of interrupt handlers and of
    disable paths, whatever the number of handlers and the schedule, the
    event that [tpg->drm->event] held at the start is handed to
    [drm_crtc_send_vblank_event] at most once, nothing else is handed over,
    and once it is handed over the slot is null.  So if no event had been
    handed over twice before, and the pending one not at all, none has been
    handed over twice afterwards. *)
Theorem irq_disable_deliver_at_most_once tpg sched s s' :
  run_schedule tpg sched s = Some s' ->
  slot_taken_at_most_once (shared s) (shared s') /\
  (NoDup (delivered (trace (shared s))) ->
   ~ In (drm_event (shared s)) (delivered (trace (shared s))) ->
   NoDup (delivered (trace (shared s')))).
Proof.
  intros Hrun.
  assert (Hslot : slot_taken_at_most_once (shared s) (shared s')).
  { revert s Hrun. induction sched as [|i sched IH]; intros s Hrun.
    - inversion Hrun. apply slot_refl.
    - simpl in Hrun. destruct (step tpg i s) as [s1|] eqn:Hs; [|discriminate].
      apply slot_trans with (shared s1);
        [now apply (step_slot tpg i) | now apply IH]. }
  split; [exact Hslot|].
  intros Hnd Hnew. destruct Hslot as [new [Ht [[Hd _]|[Hd _]]]];
    rewrite Ht, delivered_app, Hd.
  - now rewrite app_nil_r.
  - apply NoDup_app; [exact Hnd | repeat constructor; simpl; tauto |].
    intros e He [E|[]]. subst e. contradiction.
Qed.

(** The steps are the functions: a handler, or a disable path, that is
    scheduled alone until it returns does what [xlnx_tpg_irq_handler], or
    [xlnx_tpg_crtc_disable], does in one go. *)
Lemma irq_thread_is_handler tpg hw w others :
  exists n,
    run_schedule tpg (repeat 0%nat n)
      {| shared := w; threads := IrqThread (IrqRead hw) :: others |} =
    Some {| shared := snd (xlnx_tpg_irq_handler tpg hw w);
            threads :=
              IrqThread (IrqRet (fst (xlnx_tpg_irq_handler tpg hw w)))
              :: others |}.
Proof.
  unfold xlnx_tpg_irq_handler.
  destruct (Z.land (to_u32 hw) XLNX_TPG_IP_IRQ_AP_DONE =? 0) eqn:E.
  - exists 3%nat. cbn -[Z.land to_u32 XLNX_TPG_IP_IRQ_AP_DONE Z.add].
    unfold step, bind, ret.
    cbn -[Z.land to_u32 XLNX_TPG_IP_IRQ_AP_DONE Z.add].
    rewrite E. reflexivity.
  - exists 4%nat. cbn -[Z.land to_u32 XLNX_TPG_IP_IRQ_AP_DONE Z.add].
    unfold step, bind, ret.
    cbn -[Z.land to_u32 XLNX_TPG_IP_IRQ_AP_DONE Z.add finish_page_flip].
    rewrite E.
    cbn -[Z.land to_u32 XLNX_TPG_IP_IRQ_AP_DONE Z.add finish_page_flip].
    reflexivity.
Qed.

Lemma disable_thread_is_disable tpg w others :
  exists n,
    run_schedule tpg (repeat 0%nat n)
      {| shared := w; threads := DisableThread DisVtc :: others |} =
    Some {| shared := snd (xlnx_tpg_crtc_disable tpg w);
            threads := DisableThread DisRet :: others |}.
Proof.
  unfold xlnx_tpg_crtc_disable.
  destruct (Z.eqb_spec (Drm.event (crtc_state w)) NULL) as [E|E].
  - exists 3%nat. cbn -[Z.add vtc_calls]. unfold step, bind, ret.
    cbn -[Z.add vtc_calls].
    destruct (negb (vtc tpg =? NULL)); rewrite ?vtc_calls_run;
      cbn -[Z.add]; rewrite E; reflexivity.
  - exists 4%nat. cbn -[Z.add vtc_calls]. unfold step, bind, ret.
    cbn -[Z.add vtc_calls].
    apply Z.eqb_neq in E.
    destruct (negb (vtc tpg =? NULL)); rewrite ?vtc_calls_run;
      cbn -[Z.add]; rewrite E; reflexivity.
Qed.

(** ** Probe *)

(** What [xlnx_tpg_probe] returns does not depend on the value of
    ["bus-format"]: no step of the probe path looks at the colour format
    the value maps to. *)
Lemma probe_return_ignores_bus_format env v v' l w :
  fst (fst (xlnx_tpg_probe (with_bus_format v env) l w)) =
  fst (fst (xlnx_tpg_probe (with_bus_format v' env) l w)).
Proof.
  unfold xlnx_tpg_probe, xlnx_tpg_drm_init, xlnx_tpg_pipeline_init,
    xlnx_tpg_map_resources, xlnx_tpg_setup_irq, xlnx_tpg_create_properties,
    bind, ret.
  cbn [with_bus_format devm_kzalloc devm_drm_of_get_bridge
       of_property_read_u32 of_parse_phandle devm_drm_dev_alloc
       drm_mode_config_init drm_vblank_init of_address_to_resource
       devm_ioremap_resource irq_of_parse_and_map devm_request_irq
       drm_universal_plane_init drm_crtc_init_with_planes drm_crtc_index
       drm_simple_encoder_init drm_bridge_attach drm_bridge_connector_init
       drm_connector_attach_encoder drm_property_create_enum
       drm_dev_register fst snd
       set_vtc set_disp_bridge set_regs set_irq set_output_bus_format
       set_color_format set_drm set_pattern_prop set_crtc_index
       vtc disp_bridge regs irq drm].
  repeat match goal with
         | |- context [if ?c then _ else _] => destruct c; cbn [fst snd]
         end; reflexivity.
Qed.

(** When the probe gets as far as looking up the timing controller, the
    colour format it has stored is the image of ["bus-format"], also when
    that image is [XTPG_FMT_INVALID]. *)
Lemma probe_stores_color_format env l w :
  let r := xlnx_tpg_probe env l w in
  devm_kzalloc env <> NULL ->
  IS_ERR (devm_drm_of_get_bridge env) = false ->
  fst (of_property_read_u32 env) = 0 ->
  of_parse_phandle env <> NULL ->
  fst (xlnx_of_find_vtc (of_parse_phandle env) NULL l) = 0 ->
  color_format (snd (fst r)) =
  xlnx_tpg_bus_to_color_format (to_u32 (snd (of_property_read_u32 env))).
Proof.
  intros r Hk Hb Hp Hn Hf. subst r. unfold xlnx_tpg_probe.
  destruct (Z.eqb_spec (devm_kzalloc env) NULL); [contradiction|].
  cbn [set_disp_bridge disp_bridge]. rewrite Hb, Hp.
  cbn [negb Z.eqb].
  destruct (Z.eqb_spec (of_parse_phandle env) NULL); [contradiction|].
  cbn [vtc set_color_format set_output_bus_format set_disp_bridge tpg_zero].
  rewrite Hf. cbn [Z.ltb Z.compare].
  unfold bind, xlnx_tpg_drm_init, xlnx_tpg_pipeline_init,
    xlnx_tpg_map_resources, xlnx_tpg_setup_irq, xlnx_tpg_create_properties,
    bind, ret.
  repeat match goal with
         | |- context [if ?c then _ else _] => destruct c; cbn [fst snd]
         end; reflexivity.
Qed.

End Driver.

Arguments of_node {videomode} _.
Arguments enable {videomode} _.
Arguments disable {videomode} _.
Arguments set_timing {videomode} _.
Arguments trace {videomode drm_display_mode} _.
Arguments crtc_state {videomode drm_display_mode} _.
Arguments drm_event {videomode drm_display_mode} _.
Arguments shared {videomode drm_display_mode} _.
Arguments threads {videomode drm_display_mode} _.
Arguments delivered {videomode} _.
Arguments completed {videomode} _.
Arguments programmed {videomode} _ _ _.
Arguments pipeline_state {videomode drm_display_mode} _ _.
Arguments EvReadl {videomode} _ _.
Arguments EvWritel {videomode} _ _.
Arguments EvVtc {videomode} _.
Arguments EvEventPipe {videomode} _ _.
Arguments EvDrm {videomode} _.
Arguments CallEnable {videomode} _.
Arguments CallDisable {videomode} _.
Arguments CallSetTiming {videomode} _ _.

(** * A concrete setting

    A display mode is its width and height, the video mode handed to the
    timing controller is the same pair, and the media bus codes are those
    of the kernel's UAPI header.  The timing controller at address [p] has
    device node [p + 100] and all three callbacks. *)

Module Demo.

Definition mode : Type := Z * Z.

Definition mem (p : ptr) : xlnx_vtc_iface mode :=
  {| of_node := p + 100;
     enable := Some (fun _ => 0);
     disable := Some (fun _ => tt);
     set_timing := Some (fun _ _ => 0) |}.

Definition RGB666_1X18 : Z := 0x1009.
Definition RBG888_1X24 : Z := 0x100e.
Definition UYVY8_1X16 : Z := 0x200f.
Definition VUY8_1X24 : Z := 0x2024.
Definition UYVY10_1X20 : Z := 0x201a.
Definition RGB888_1X24 : Z := 0x100a.

Definition history : list registry_op :=
  [Register 1; Register 2; Unregister 1].

Definition registry : xlnx_vtc_list :=
  {| head := [1]; initialized := true |}.

(** A generator probed for UYVY8_1X16 with the timing controller at 1. *)
Definition tpg : xlnx_tpg :=
  {| vtc := 1; disp_bridge := 0x5000; regs := 0x8000; irq := 42;
     output_bus_format := UYVY8_1X16; color_format := XTPG_FMT_YUV_422;
     drm := 0x6000; pattern_prop := 0x7000; crtc_index := 0 |}.

Definition state (e : ptr) : Drm.drm_crtc_state mode :=
  {| Drm.enable := true; Drm.output_bus_format := UYVY8_1X16;
     Drm.adjusted_mode := (1920, 1080); Drm.event := e |}.

(** Nothing has happened yet; [crtc->state->event] holds [e] and
    [tpg->drm->event] holds [armed]. *)
Definition world0 (e armed : ptr) : world mode mode :=
  Build_world mode mode [] (state e) armed.

(** A proposed state that asks for RGB888_1X24. *)
Definition proposed : Drm.drm_crtc_state mode :=
  {| Drm.enable := true; Drm.output_bus_format := RGB888_1X24;
     Drm.adjusted_mode := (1920, 1080); Drm.event := NULL |}.

(** Every call of the probe path succeeds; ["bus-format"] is the code
    [bus_format]; ["xlnx,bridge"] names node 101. *)
Definition env (bus_format : Z) : probe_env :=
  {| devm_kzalloc := 0x4000;
     devm_drm_of_get_bridge := 0x5000;
     of_property_read_u32 := (0, bus_format);
     of_parse_phandle := 101;
     devm_drm_dev_alloc := 0x6000;
     drm_mode_config_init := 0;
     drm_vblank_init := 0;
     of_address_to_resource := 0;
     devm_ioremap_resource := 0x8000;
     irq_of_parse_and_map := 42;
     devm_request_irq := 0;
     drm_universal_plane_init := 0;
     drm_crtc_init_with_planes := 0;
     drm_crtc_index := 0;
     drm_simple_encoder_init := 0;
     drm_bridge_attach := 0;
     drm_bridge_connector_init := 0x9000;
     drm_connector_attach_encoder := 0;
     drm_property_create_enum := 0x7000;
     drm_dev_register := 0 |}.

Definition probe (bus_format : Z) :=
  xlnx_tpg_probe mode mode RGB666_1X18 RBG888_1X24 UYVY8_1X16 VUY8_1X24
    UYVY10_1X20 mem (env bus_format) registry (world0 NULL NULL).

Definition crtc_enable :=
  xlnx_tpg_crtc_enable mode mode fst snd (fun m => m) mem.

Definition crtc_disable := xlnx_tpg_crtc_disable mode mode mem.

(** The plane update has armed the event 7 of a commit. *)
Definition armed : world mode mode :=
  snd (xlnx_tpg_plane_atomic_update mode mode tpg (world0 7 NULL)).

(** Two interrupts and a disable, all about to start, with the event 7
    armed and the event 9 still in [crtc->state->event]. *)
Definition sys0 : sys mode mode :=
  {| shared := world0 9 7;
     threads := [IrqThread (IrqRead 1); DisableThread DisVtc;
                 IrqThread (IrqRead 1)] |}.

Definition schedule : list nat :=
  [0; 1; 2; 0; 1; 2; 2; 1; 0; 2; 1; 0]%nat.

End Demo.

(** * The properties on the concrete setting *)

Lemma demo_history_distinct :
  distinct_history Demo.mode Demo.mem Demo.history.
Proof.
  assert (H1 : distinct_history Demo.mode Demo.mem [Register 1]).
  { apply (dh_register _ _ [] 1);
      [constructor | discriminate | cbv; discriminate |].
    intros u Hu. discriminate Hu. }
  assert (H2 : distinct_history Demo.mode Demo.mem
                 [Register 1; Register 2]).
  { apply (dh_register _ _ [Register 1] 2);
      [exact H1 | discriminate | cbv; discriminate |].
    intros u Hu. unfold registered in Hu. cbn [registered_from] in Hu.
    destruct (Z.eqb_spec 1 u) as [E|E]; [|discriminate].
    subst u. cbv. discriminate. }
  apply (dh_unregister _ _ [Register 1; Register 2] 1);
    [exact H2 | reflexivity].
Defined.

(** After [Register 1; Register 2; Unregister 1] the node of handle 2 is
    found and the node of handle 1 is deferred. *)
Lemma find_after_history_witness :
  distinct_history Demo.mode Demo.mem Demo.history /\
  exists l,
    run Demo.mode Demo.mem Demo.history
      (snd (xlnx_vtc_list_init vtc_list0)) = Some l /\
    xlnx_of_find_vtc Demo.mode Demo.mem 102 5 l = (0, 2) /\
    xlnx_of_find_vtc Demo.mode Demo.mem 101 5 l =
      (- EPROBE_DEFER, NULL).
Proof.
  split; [exact demo_history_distinct|].
  destruct (find_after_history Demo.mode Demo.mem Demo.history
              demo_history_distinct) as [l [Hrun [Hhit [Hmiss _]]]].
  exists l. split; [exact Hrun|]. split.
  - apply (Hhit 2 5). reflexivity.
  - apply (Hmiss 101 5). intros v Hv.
    unfold registered, Demo.history in Hv. cbn [registered_from] in Hv.
    destruct (Z.eqb_spec 1 v) as [E1|E1]; [discriminate|].
    destruct (Z.eqb_spec 2 v) as [E2|E2]; [|discriminate].
    subst v. cbv. discriminate.
Defined.

(** C3 as stated fails.  The handles 1 and 2 have distinct, non-null
    nodes, and [Register 1; Unregister 2] is a sequence of register and
    unregister calls on them.  Handle 2 is not linked when it is
    unregistered: [xlnx_vtc_unregister] hands it to [list_del] unchecked,
    the sequence does not run to its end, and there is no registry left
    in which the lookup of node 101 could return handle 1, the handle that
    the sequence leaves registered. *)
Lemma unregister_unregistered_breaks_lookup :
  of_node (Demo.mem 1) <> of_node (Demo.mem 2) /\
  registered [Register 1; Unregister 2] 1 = true /\
  ~ distinct_history Demo.mode Demo.mem [Register 1; Unregister 2] /\
  run Demo.mode Demo.mem [Register 1; Unregister 2]
    (snd (xlnx_vtc_list_init vtc_list0)) = None /\
  ~ (exists l,
       run Demo.mode Demo.mem [Register 1; Unregister 2]
         (snd (xlnx_vtc_list_init vtc_list0)) = Some l /\
       xlnx_of_find_vtc Demo.mode Demo.mem 101 0 l = (0, 1)).
Proof.
  split; [cbv; discriminate|]. split; [reflexivity|]. split; [|split].
  - intros H. remember [Register 1; Unregister 2] as h eqn:E.
    destruct H as [|ops vtc Hd Hv Hn Hfresh|ops vtc Hd Hreg].
    + discriminate E.
    + change [Register 1; Unregister 2]
        with ([Register 1] ++ [Unregister 2]) in E.
      apply app_inj_tail in E. destruct E as [_ E]. discriminate E.
    + change [Register 1; Unregister 2]
        with ([Register 1] ++ [Unregister 2]) in E.
      apply app_inj_tail in E. destruct E as [E1 E2].
      inversion E2. subst. discriminate Hreg.
  - reflexivity.
  - intros [l [Hrun _]]. discriminate Hrun.
Qed.

(** Registering handle 3 next to handle 1. *)
Lemma register_spec_witness :
  3 <> NULL /\ of_node (Demo.mem 3) <> NULL /\
  initialized Demo.registry = true /\
  exists l',
    xlnx_vtc_register Demo.mode Demo.mem 3 Demo.registry = (0, l') /\
    head l' = [1; 3] /\
    xlnx_of_find_vtc Demo.mode Demo.mem 103 0 l' = (0, 3) /\
    xlnx_of_find_vtc Demo.mode Demo.mem 101 0 l' = (0, 1).
Proof.
  assert (Hv : 3 <> NULL) by discriminate.
  assert (Hn : of_node (Demo.mem 3) <> NULL) by (cbv; discriminate).
  assert (Hi : initialized Demo.registry = true) by reflexivity.
  split; [exact Hv|]. split; [exact Hn|]. split; [exact Hi|].
  destruct (register_spec Demo.mode Demo.mem 3 Demo.registry)
    as [_ [_ H]].
  destruct (H Hv Hn Hi) as [l' [Hreg [Hhead [_ [_ [Hfind Hother]]]]]].
  exists l'. split; [exact Hreg|]. split; [exact Hhead|]. split.
  - apply Hfind. intros u [E|[]]. subst u. cbv. discriminate.
  - rewrite (Hother 101 0); [reflexivity | cbv; discriminate].
Defined.

(** A lookup that fails overwrites the 5 that [*vtc] held. *)
Lemma find_failure_clears_out_witness :
  fst (xlnx_of_find_vtc Demo.mode Demo.mem 999 5 Demo.registry)
    <> 0 /\
  xlnx_of_find_vtc Demo.mode Demo.mem 999 5 Demo.registry =
    (- EPROBE_DEFER, NULL).
Proof.
  assert (H : fst (xlnx_of_find_vtc Demo.mode Demo.mem 999 5
                     Demo.registry) <> 0) by (cbv; discriminate).
  split; [exact H|].
  exact (find_failure_clears_out Demo.mode Demo.mem 999 5
           Demo.registry H).
Defined.

(** The table at the codes of the kernel's header. *)
Lemma bus_to_color_format_table_witness :
  NoDup [Demo.RGB666_1X18; Demo.RBG888_1X24; Demo.UYVY8_1X16;
         Demo.VUY8_1X24; Demo.UYVY10_1X20] /\
  xlnx_tpg_bus_to_color_format Demo.RGB666_1X18 Demo.RBG888_1X24
    Demo.UYVY8_1X16 Demo.VUY8_1X24 Demo.UYVY10_1X20
    Demo.VUY8_1X24 = XTPG_FMT_YUV_444 /\
  xlnx_tpg_bus_to_color_format Demo.RGB666_1X18 Demo.RBG888_1X24
    Demo.UYVY8_1X16 Demo.VUY8_1X24 Demo.UYVY10_1X20
    Demo.RGB888_1X24 = XTPG_FMT_INVALID.
Proof.
  assert (H : NoDup [Demo.RGB666_1X18; Demo.RBG888_1X24;
                     Demo.UYVY8_1X16; Demo.VUY8_1X24;
                     Demo.UYVY10_1X20]).
  { repeat constructor; simpl; intuition discriminate. }
  split; [exact H|].
  destruct (bus_to_color_format_table _ _ _ _ _ H)
    as [_ [_ [_ [Hvuy [_ Hother]]]]].
  split; [exact Hvuy|].
  apply Hother. simpl. intuition discriminate.
Defined.

(** The fixed format among three candidates, and among none. *)
Lemma select_output_bus_format_spec_witness :
  In (output_bus_format Demo.tpg)
     [Demo.RGB888_1X24; Demo.UYVY8_1X16; Demo.VUY8_1X24] /\
  xlnx_tpg_crtc_select_output_bus_format Demo.tpg
    [Demo.RGB888_1X24; Demo.UYVY8_1X16; Demo.VUY8_1X24] =
  Demo.UYVY8_1X16.
Proof.
  assert (H : In (output_bus_format Demo.tpg)
                [Demo.RGB888_1X24; Demo.UYVY8_1X16; Demo.VUY8_1X24]).
  { right. left. reflexivity. }
  split; [exact H|].
  destruct (select_output_bus_format_spec Demo.tpg
              [Demo.RGB888_1X24; Demo.UYVY8_1X16; Demo.VUY8_1X24])
    as [Hin _].
  exact (Hin H).
Defined.

(** A proposal of RGB888_1X24 to the generator fixed at UYVY8_1X16, with a
    primary plane helper that passes. *)
Lemma crtc_check_rejects_format_mismatch_witness :
  Drm.enable Demo.proposed = true /\
  Drm.output_bus_format Demo.proposed <> output_bus_format Demo.tpg /\
  xlnx_tpg_crtc_check Demo.mode Demo.mode (fun _ => 0) (fun _ => 0)
    Demo.tpg Demo.proposed (Demo.world0 NULL NULL) =
  (- EINVAL, Demo.world0 NULL NULL).
Proof.
  assert (He : Drm.enable Demo.proposed = true) by reflexivity.
  assert (Hf : Drm.output_bus_format Demo.proposed <>
               output_bus_format Demo.tpg) by (cbv; discriminate).
  split; [exact He|]. split; [exact Hf|].
  destruct (crtc_check_rejects_format_mismatch Demo.mode Demo.mode
              (fun _ => 0) (fun _ => 0) Demo.tpg Demo.proposed
              (Demo.world0 NULL NULL) He Hf) as [Hr [_ [_ [Hw _]]]].
  rewrite (surjective_pairing (xlnx_tpg_crtc_check _ _ _ _ _ _ _)).
  rewrite Hr, Hw. reflexivity.
Defined.

(** Enabling 1920 x 1080 in YUV 4:2:2 with the timing controller at 1. *)
Lemma crtc_enable_order_witness :
  vtc Demo.tpg <> NULL /\
  trace (snd (Demo.crtc_enable Demo.tpg (Demo.world0 NULL NULL))) =
  [ EvVtc (CallSetTiming 1 (1920, 1080));
    EvVtc (CallEnable 1);
    EvWritel 1920 (0x8000 + XLNX_TPG_ACTIVE_WIDTH);
    EvWritel 1080 (0x8000 + XLNX_TPG_ACTIVE_HEIGHT);
    EvWritel 2 (0x8000 + XLNX_TPG_COLOR_FORMAT);
    EvWritel 0x81 (0x8000 + XLNX_TPG_CONTROL) ].
Proof.
  assert (Hv : vtc Demo.tpg <> NULL) by (cbv; discriminate).
  split; [exact Hv|].
  destruct (crtc_enable_order Demo.mode Demo.mode fst snd (fun m => m)
              Demo.mem Demo.tpg (Demo.world0 NULL NULL) Hv)
    as [_ [Hboth _]].
  exact (Hboth (fun _ _ => 0) (fun _ => 0) eq_refl eq_refl).
Defined.

(** Two interrupts interleaved with a disable: the armed event 7 is
    handed over once, by the handler that reaches the lock first. *)
Lemma irq_disable_deliver_at_most_once_witness :
  exists s',
    run_schedule Demo.mode Demo.mode Demo.mem Demo.tpg
      Demo.schedule Demo.sys0 = Some s' /\
    delivered (trace (shared s')) = [7] /\
    NoDup (delivered (trace (shared s'))).
Proof.
  destruct (run_schedule Demo.mode Demo.mode Demo.mem Demo.tpg
              Demo.schedule Demo.sys0) as [s'|] eqn:Hrun;
    [|discriminate Hrun].
  exists s'. split; [reflexivity|].
  destruct (irq_disable_deliver_at_most_once Demo.mode Demo.mode
              Demo.mem Demo.tpg Demo.schedule Demo.sys0 s' Hrun)
    as [_ Hnd].
  split.
  - vm_compute in Hrun. inversion Hrun. reflexivity.
  - apply Hnd; [constructor | intros []].
Defined.

(** C2 as stated fails.  The plane update has moved the event 7 of a
    commit from [crtc->state->event] into [tpg->drm->event].  After
    [xlnx_tpg_crtc_disable] that slot still holds 7, and 7 has neither
    been completed nor handed to [drm_crtc_send_vblank_event]: the only
    effects of the disable are the timing controller's [disable] and
    [drm_crtc_vblank_off]. *)
Lemma crtc_disable_leaves_armed_event :
  drm_event Demo.armed = 7 /\
  Drm.event (crtc_state Demo.armed) = NULL /\
  drm_event (snd (Demo.crtc_disable Demo.tpg Demo.armed)) = 7 /\
  trace (snd (Demo.crtc_disable Demo.tpg Demo.armed)) =
    trace Demo.armed ++
    [EvVtc (CallDisable 1); EvDrm Drm.drm_crtc_vblank_off] /\
  ~ In 7 (completed
            (trace (snd (Demo.crtc_disable Demo.tpg Demo.armed)))) /\
  ~ In 7 (delivered
            (trace (snd (Demo.crtc_disable Demo.tpg Demo.armed)))).
Proof.
  split; [reflexivity|]. split; [reflexivity|].
  split; [reflexivity|]. split; [reflexivity|]. split; cbv; tauto.
Qed.

(** C1 on the code.  With ["bus-format"] set to RGB888_1X24, a code that
    is not in the table, and every other step of the probe succeeding,
    [xlnx_tpg_probe] returns 0 with [XTPG_FMT_INVALID] as colour format.
    A later [xlnx_tpg_crtc_enable] writes that value, 4, to the colour
    format register and starts the generator. *)
Lemma probe_accepts_unmapped_bus_format :
  fst (fst (Demo.probe Demo.RGB888_1X24)) = 0 /\
  color_format (snd (fst (Demo.probe Demo.RGB888_1X24))) =
    XTPG_FMT_INVALID /\
  let tpg := snd (fst (Demo.probe Demo.RGB888_1X24)) in
  let w := snd (Demo.crtc_enable tpg
                  (snd (Demo.probe Demo.RGB888_1X24))) in
  programmed tpg XLNX_TPG_COLOR_FORMAT (trace w) =
    Some (format_value XTPG_FMT_INVALID) /\
  pipeline_state tpg w = Enabled.
Proof. repeat split. Qed.

(** ** Runs of the model *)

(** The spec leaves open what unregistering a handle that is not
    registered does; the model reports it rather than choosing. *)
Example unregister_not_registered :
  run Demo.mode Demo.mem [Register 1; Unregister 2]
    (snd (xlnx_vtc_list_init vtc_list0)) = None.
Proof. reflexivity. Qed.

Example find_before_init :
  xlnx_of_find_vtc Demo.mode Demo.mem 101 5 vtc_list0 =
  (- EPROBE_DEFER, NULL).
Proof. reflexivity. Qed.

Example find_after_fini :
  xlnx_of_find_vtc Demo.mode Demo.mem 101 5
    (xlnx_vtc_list_fini Demo.registry) = (- EPROBE_DEFER, NULL).
Proof. reflexivity. Qed.

Example register_before_init :
  xlnx_vtc_register Demo.mode Demo.mem 1 vtc_list0 = (- EFAULT, vtc_list0).
Proof. reflexivity. Qed.

(** An interrupt whose status lacks the frame-done bit is not ours and
    leaves the armed event where it is. *)
Example irq_not_ours :
  xlnx_tpg_irq_handler Demo.mode Demo.mode Demo.tpg 2 Demo.armed =
  (IRQ_NONE,
   Build_world Demo.mode Demo.mode
     (trace Demo.armed ++
      [EvReadl (0x8000 + XLNX_TPG_IP_IRQ_STATUS) 2;
       EvWritel 2 (0x8000 + XLNX_TPG_IP_IRQ_STATUS)])
     (crtc_state Demo.armed) 7).
Proof. reflexivity. Qed.

(** A frame-done interrupt hands the armed event over; the next one finds
    the slot empty and hands nothing over. *)
Example irq_twice :
  delivered
    (trace (snd (xlnx_tpg_irq_handler Demo.mode Demo.mode Demo.tpg 1
                   (snd (xlnx_tpg_irq_handler Demo.mode Demo.mode Demo.tpg 1
                           Demo.armed))))) = [7].
Proof. reflexivity. Qed.

(** A supported bus format probes to its colour format. *)
Example probe_uyvy8 :
  fst (fst (Demo.probe Demo.UYVY8_1X16)) = 0 /\
  color_format (snd (fst (Demo.probe Demo.UYVY8_1X16))) = XTPG_FMT_YUV_422.
Proof. split; reflexivity. Qed.

(** A timing controller that is not registered defers the probe. *)
Example probe_deferred :
  fst (fst (xlnx_tpg_probe Demo.mode Demo.mode Demo.RGB666_1X18
              Demo.RBG888_1X24 Demo.UYVY8_1X16 Demo.VUY8_1X24
              Demo.UYVY10_1X20 Demo.mem (Demo.env Demo.UYVY8_1X16)
              (snd (xlnx_vtc_list_init vtc_list0))
              (Demo.world0 NULL NULL))) = - EPROBE_DEFER.
Proof. reflexivity. Qed.
